(** * Naming gRPC client proxy of nacos-sdk-python (v2): a shallow embedding

  Source: [v2/nacos/naming/remote/naming_grpc_client_proxy.py], class
  [NamingGRPCClientProxy].

  Layout of the development:
  - [PyStr]: the fragments of Python's [str] and [bytes] that the proxy
    uses ([strip], [encode], [decode], [str(int)]);
  - [SHA1], [HMAC], [Base64]: the standard-library primitives behind the
    request signature ([hashlib.sha1], [hmac.new(...).digest()],
    [base64.encodebytes]);
  - the data model (requests, responses, credentials, the proxy object);
  - a state-and-exception monad [M] standing for the [async] methods, with
    an event trace recording the order of the observable actions;
  - the methods of the class, one definition per method ([__init__] and
    [start], which only wire the collaborators together, are left out);
  - the theorems.

  The collaborators of the proxy (the transport client, the server
  connector, the credentials provider, the clock) are values of the model:
  a call of one of them is a function of its arguments that returns or
  raises.  Every method calls each of them at most once, so nothing is lost
  by that. *)

From Stdlib Require Import ZArith List String Ascii Lia DecimalString.
From stdpp Require Import base option list gmap.

Local Open Scope Z_scope.

(** A Python [str] is a sequence of Unicode code points.  A code point is
  kept as an integer in [0 .. 0x10FFFF]. *)
Abbreviation pystr := (list Z).

(** A [bytes] object: a sequence of integers in [0 .. 255]. *)
Abbreviation pybytes := (list Z).

(* ===================================================================== *)
(** * Exceptions and outcomes *)
(* ===================================================================== *)

(** The exceptions that can travel through the proxy, by the [except]
    clause that catches them:
    - [NacosException(error_code, message)], the SDK's own exception;
    - any other subclass of [Exception], kept as the name of its class and
      the text [str(e)];
    - an exception that derives from [BaseException] only
      ([asyncio.CancelledError], [KeyboardInterrupt], [SystemExit]), which
      [except Exception] does not catch. *)
Inductive PyExn : Type :=
| NacosException (error_code : Z) (message : pystr)
| PyException (kind : pystr) (text : pystr)
| PyBaseException (kind : pystr) (text : pystr).

(** What a call does: it returns a value or raises. *)
Inductive Outcome (A : Type) : Type :=
| Returns (a : A)
| Raises (e : PyExn).
Arguments Returns {A} a.
Arguments Raises {A} e.

(* ===================================================================== *)
(** * Python strings *)
(* ===================================================================== *)

Module PyStr.

(** String literals of the source, written as Rocq strings (ASCII). *)
Definition lit (s : string) : pystr :=
  map (fun a => Z.of_N (N_of_ascii a)) (list_ascii_of_string s).

(** Truth value of a string: [bool(s)] is [len(s) != 0]. *)
Definition truthy (s : pystr) : bool :=
  match s with [] => false | _ :: _ => true end.

(** Truth value of an optional string: [None] is false. *)
Definition truthy_opt (o : option pystr) : bool :=
  match o with None => false | Some s => truthy s end.

(** [str.isspace] on one code point, as [str.strip()] uses it: the ASCII
    table [_Py_ascii_whitespace] below 128, [_PyUnicode_IsWhitespace]
    above. *)
Definition is_space (c : Z) : bool :=
  ((0x09 <=? c) && (c <=? 0x0D)) ||
  ((0x1C <=? c) && (c <=? 0x20)) ||
  (c =? 0x85) || (c =? 0xA0) || (c =? 0x1680) ||
  ((0x2000 <=? c) && (c <=? 0x200A)) ||
  (c =? 0x2028) || (c =? 0x2029) || (c =? 0x202F) ||
  (c =? 0x205F) || (c =? 0x3000).

Fixpoint lstrip (s : pystr) : pystr :=
  match s with
  | [] => []
  | c :: s' => if is_space c then lstrip s' else s
  end.

Definition rstrip (s : pystr) : pystr := rev (lstrip (rev s)).

(** [s.strip()]: whitespace removed at both ends. *)
Definition strip (s : pystr) : pystr := rstrip (lstrip s).

Definition is_surrogate (c : Z) : bool := (0xD800 <=? c) && (c <=? 0xDFFF).

(** UTF-8 encoding of one code point; lone surrogates cannot be encoded
    ([UnicodeEncodeError] under the default [strict] handler). *)
Definition utf8_char (c : Z) : option pybytes :=
  if c <? 0x80 then Some [c]
  else if c <? 0x800 then
    Some [Z.lor 0xC0 (Z.shiftr c 6); Z.lor 0x80 (Z.land c 0x3F)]
  else if c <? 0x10000 then
    if is_surrogate c then None
    else Some [Z.lor 0xE0 (Z.shiftr c 12);
               Z.lor 0x80 (Z.land (Z.shiftr c 6) 0x3F);
               Z.lor 0x80 (Z.land c 0x3F)]
  else
    Some [Z.lor 0xF0 (Z.shiftr c 18);
          Z.lor 0x80 (Z.land (Z.shiftr c 12) 0x3F);
          Z.lor 0x80 (Z.land (Z.shiftr c 6) 0x3F);
          Z.lor 0x80 (Z.land c 0x3F)].

(** [str(n)] for an [int]: decimal digits, with a leading minus sign for a
    negative number. *)
Definition str_of_int (n : Z) : pystr :=
  lit (NilZero.string_of_int (Z.to_int n)).

Definition hex_digit (d : Z) : Z := nth (Z.to_nat d) (lit "0123456789abcdef") 0x30.

(** The four lower-case hexadecimal digits of a code point of the basic
    plane, as in the escape [\udc80]. *)
Definition hex4 (c : Z) : pystr :=
  [hex_digit (Z.land (Z.shiftr c 12) 0xF); hex_digit (Z.land (Z.shiftr c 8) 0xF);
   hex_digit (Z.land (Z.shiftr c 4) 0xF); hex_digit (Z.land c 0xF)].

(** Number of surrogates at the head of a string. *)
Fixpoint surrogate_run (s : pystr) : Z :=
  match s with
  | c :: s' => if is_surrogate c then 1 + surrogate_run s' else 0
  | [] => 0
  end.

(** [str(e)] of the [UnicodeEncodeError] raised at position [i], where the
    rest of the string [c :: s'] starts with a surrogate. *)
Definition encode_error_text (i c : Z) (s' : pystr) : pystr :=
  let n := surrogate_run s' in
  if n =? 0 then
    lit "'utf-8' codec can't encode character '\u" ++ hex4 c
    ++ lit "' in position " ++ str_of_int i ++ lit ": surrogates not allowed"
  else
    lit "'utf-8' codec can't encode characters in position " ++ str_of_int i
    ++ lit "-" ++ str_of_int (i + n) ++ lit ": surrogates not allowed".

Fixpoint encode_from (i : Z) (s : pystr) : Outcome pybytes :=
  match s with
  | [] => Returns []
  | c :: s' =>
      match utf8_char c with
      | None => Raises (PyException (lit "UnicodeEncodeError") (encode_error_text i c s'))
      | Some b =>
          match encode_from (i + 1) s' with
          | Returns bs => Returns (b ++ bs)
          | Raises e => Raises e
          end
      end
  end.

(** [s.encode()]: UTF-8 under the [strict] error handler. *)
Definition encode (s : pystr) : Outcome pybytes := encode_from 0 s.

(** [b.decode()] for bytes below 128, where UTF-8 decoding maps every byte
    to the code point of the same value.  The proxy decodes base64 text
    only, which [SignatureFacts.encodebytes_ascii] shows to be in that range. *)
Definition decode (b : pybytes) : pystr := b.

End PyStr.

Arguments PyStr.lit : simpl never.

(* ===================================================================== *)
(** * SHA-1, HMAC and base64 *)
(* ===================================================================== *)

Module SHA1.

Definition mask32 : Z := 0xFFFFFFFF.
Definition add32 (x y : Z) : Z := Z.land (x + y) mask32.
Definition rotl32 (n x : Z) : Z :=
  Z.land (Z.lor (Z.shiftl x n) (Z.shiftr x (32 - n))) mask32.
Definition not32 (x : Z) : Z := Z.lxor x mask32.

(** Big-endian serialisation of a value on [n] bytes. *)
Fixpoint be_bytes (n : nat) (x : Z) : pybytes :=
  match n with
  | O => []
  | S n' => Z.land (Z.shiftr x (8 * Z.of_nat n')) 0xFF :: be_bytes n' x
  end.

Definition be_word (b : pybytes) : Z :=
  fold_left (fun acc x => Z.lor (Z.shiftl acc 8) x) b 0.

(** Message padding: a [1] bit, zeros up to 56 modulo 64, then the bit
    length on 8 bytes. *)
Definition pad (m : pybytes) : pybytes :=
  let len := Z.of_nat (length m) in
  m ++ [0x80] ++ repeat 0 (Z.to_nat ((55 - len) mod 64)) ++ be_bytes 8 (8 * len).

(** The [i]-th piece of [n] items of a list. *)
Definition piece {A} (n i : nat) (l : list A) : list A :=
  take n (drop (i * n) l).

Definition pieces {A} (n : nat) (l : list A) : list (list A) :=
  map (fun i => piece n i l) (seq 0 (length l / n)).

(** Message schedule: 16 words extended to 80. *)
Fixpoint schedule (n : nat) (w : list Z) : list Z :=
  match n with
  | O => w
  | S n' =>
      let t := length w in
      let x := Z.lxor (Z.lxor (nth (t - 3) w 0) (nth (t - 8) w 0))
                      (Z.lxor (nth (t - 14) w 0) (nth (t - 16) w 0)) in
      schedule n' (w ++ [rotl32 1 x])
  end.

Definition state : Type := Z * Z * Z * Z * Z.

Definition round (st : state) (tw : nat * Z) : state :=
  let '(a, b, c, d, e) := st in
  let '(t, w) := tw in
  let '(f, k) :=
    if (t <? 20)%nat then
      (Z.lor (Z.land b c) (Z.land (not32 b) d), 0x5A827999)
    else if (t <? 40)%nat then
      (Z.lxor (Z.lxor b c) d, 0x6ED9EBA1)
    else if (t <? 60)%nat then
      (Z.lor (Z.lor (Z.land b c) (Z.land b d)) (Z.land c d), 0x8F1BBCDC)
    else
      (Z.lxor (Z.lxor b c) d, 0xCA62C1D6) in
  let temp := add32 (add32 (add32 (add32 (rotl32 5 a) f) e) k) w in
  (temp, a, rotl32 30 b, c, d).

Definition compress (h : state) (block : pybytes) : state :=
  let w := schedule 64 (map be_word (pieces 4 block)) in
  let '(a, b, c, d, e) := fold_left round (combine (seq 0 80) w) h in
  let '(h0, h1, h2, h3, h4) := h in
  (add32 h0 a, add32 h1 b, add32 h2 c, add32 h3 d, add32 h4 e).

Definition init : state :=
  (0x67452301, 0xEFCDAB89, 0x98BADCFE, 0x10325476, 0xC3D2E1F0).

(** [hashlib.sha1(m).digest()]. *)
Definition digest (m : pybytes) : pybytes :=
  let '(h0, h1, h2, h3, h4) := fold_left compress (pieces 64 (pad m)) init in
  be_bytes 4 h0 ++ be_bytes 4 h1 ++ be_bytes 4 h2 ++ be_bytes 4 h3 ++ be_bytes 4 h4.

Definition block_size : nat := 64.

End SHA1.

Module HMAC.

(** [hmac.new(key, msg, digestmod=hashlib.sha1).digest()]: a key longer
    than the block is hashed first, then padded with zero bytes. *)
Definition sha1 (key msg : pybytes) : pybytes :=
  let key0 := if (SHA1.block_size <? length key)%nat then SHA1.digest key else key in
  let keyp := key0 ++ repeat 0 (SHA1.block_size - length key0) in
  let inner := SHA1.digest (map (Z.lxor 0x36) keyp ++ msg) in
  SHA1.digest (map (Z.lxor 0x5C) keyp ++ inner).

End HMAC.

Module Base64.

Definition alphabet : pybytes :=
  PyStr.lit "ABCDEFGHIJKLMNOPQRSTUVWXYZabcdefghijklmnopqrstuvwxyz0123456789+/".

Definition char (i : Z) : Z := nth (Z.to_nat i) alphabet 0x41.

Definition pad_char : Z := 0x3D.
Definition newline : Z := 0x0A.

(** The base64 text of a byte string, with [=] padding and no line
    break (RFC 4648, section 4). *)
Fixpoint b64encode (l : pybytes) : pybytes :=
  match l with
  | [] => []
  | [a] =>
      [char (Z.land (Z.shiftr a 2) 0x3F);
       char (Z.shiftl (Z.land a 0x03) 4);
       pad_char; pad_char]
  | [a; b] =>
      [char (Z.land (Z.shiftr a 2) 0x3F);
       char (Z.lor (Z.shiftl (Z.land a 0x03) 4) (Z.land (Z.shiftr b 4) 0x0F));
       char (Z.shiftl (Z.land b 0x0F) 2);
       pad_char]
  | a :: b :: c :: rest =>
      char (Z.land (Z.shiftr a 2) 0x3F)
      :: char (Z.lor (Z.shiftl (Z.land a 0x03) 4) (Z.land (Z.shiftr b 4) 0x0F))
      :: char (Z.lor (Z.shiftl (Z.land b 0x0F) 2) (Z.land (Z.shiftr c 6) 0x03))
      :: char (Z.land c 0x3F)
      :: b64encode rest
  end.

(** [binascii.b2a_base64(chunk)]: the base64 text followed by a newline. *)
Definition b2a_base64 (chunk : pybytes) : pybytes := b64encode chunk ++ [newline].

Definition MAXBINSIZE : nat := 57.

(** [base64.encodebytes(s)]: one line of text per 57 bytes of input, each
    line (the last one too) closed by a newline:
    [for i in range(0, len(s), MAXBINSIZE): pieces.append(b2a_base64(s[i:i+MAXBINSIZE]))]. *)
Definition encodebytes (s : pybytes) : pybytes :=
  concat (map (fun i => b2a_base64 (take MAXBINSIZE (drop (i * MAXBINSIZE) s)))
              (seq 0 ((length s + MAXBINSIZE - 1) / MAXBINSIZE))).

End Base64.

(* ===================================================================== *)
(** * Data model *)
(* ===================================================================== *)

(** A header dictionary of a request. *)
Abbreviation Headers := (gmap pystr pystr).

(** Modelled from the spec: [Instance] (naming/model/instance.py, not part
    of the sources at hand).  Spec 3: a registrable endpoint [(ip, port,
    weight, healthy, enabled, ephemeral, metadata, clusterName)].  The proxy
    reads [ip] and [port] and carries the rest along; the floating-point
    [weight] is left out. *)
Record Instance : Type := {
  ip : pystr;
  port : Z;
  clusterName : pystr;
  healthy : bool;
  enabled : bool;
  ephemeral : bool;
  metadata : gmap pystr pystr
}.

(** Modelled from the spec: [Service] (naming/model/service.py, not part of
    the sources at hand), the service snapshot that a subscription returns
    (spec 4.5).  The proxy hands it on unread. *)
Record Service : Type := {
  name : pystr;
  service_groupName : pystr;
  service_clusters : pystr;
  hosts : list Instance
}.

(** [ServiceList(count=..., services=...)]. *)
Record ServiceList : Type := {
  ServiceList_count : Z;
  services : list pystr
}.

(** [ListServiceParam] (naming/model/naming_param.py). *)
Record ListServiceParam : Type := {
  param_namespace_id : pystr;
  group_name : pystr;
  page_no : Z;
  page_size : Z
}.

(** [NamingRemoteConstants]: the operation named in an instance request. *)
Inductive NamingRemoteConstant : Type :=
| REGISTER_INSTANCE
| DE_REGISTER_INSTANCE
| BATCH_REGISTER_INSTANCE.

(** Modelled from the spec: the four request classes of
    naming/model/naming_request.py (not part of the sources at hand), with
    the keyword arguments the proxy builds them from.  They share the fields
    of [AbstractNamingRequest] and the header map of spec 4.2, and differ by
    their body. *)
Inductive RequestBody : Type :=
| InstanceRequestBody (type : NamingRemoteConstant) (instance : Instance)
| BatchInstanceRequestBody (type : NamingRemoteConstant) (instances : list Instance)
| ServiceListRequestBody (pageNo pageSize : Z)
| SubscribeServiceRequestBody (clusters : pystr) (subscribe : bool).

Record Request : Type := {
  namespace : pystr;
  serviceName : pystr;
  groupName : pystr;
  headers : Headers;
  body : RequestBody
}.

(** The constructors, with the keyword arguments of the source in the order
    the proxy writes them.  A new request has no header. *)
Definition InstanceRequest (namespace serviceName groupName : pystr)
    (instance : Instance) (type : NamingRemoteConstant) : Request :=
  {| namespace := namespace; serviceName := serviceName; groupName := groupName;
     headers := ∅; body := InstanceRequestBody type instance |}.

Definition BatchInstanceRequest (namespace serviceName groupName : pystr)
    (instances : list Instance) (type : NamingRemoteConstant) : Request :=
  {| namespace := namespace; serviceName := serviceName; groupName := groupName;
     headers := ∅; body := BatchInstanceRequestBody type instances |}.

Definition ServiceListRequest (namespace groupName serviceName : pystr)
    (pageNo pageSize : Z) : Request :=
  {| namespace := namespace; serviceName := serviceName; groupName := groupName;
     headers := ∅; body := ServiceListRequestBody pageNo pageSize |}.

Definition SubscribeServiceRequest (namespace groupName serviceName clusters : pystr)
    (subscribe : bool) : Request :=
  {| namespace := namespace; serviceName := serviceName; groupName := groupName;
     headers := ∅; body := SubscribeServiceRequestBody clusters subscribe |}.

Definition set_headers (h : Headers) (r : Request) : Request :=
  {| namespace := namespace r; serviceName := serviceName r; groupName := groupName r;
     headers := h; body := body r |}.

(** Modelled from the spec: [request.put_header(key, value)], a method of
    the request base class (not part of the sources at hand).  Spec 4.1 and
    4.2: the header goes into the header map of the request. *)
Definition put_header (key value : pystr) (r : Request) : Request :=
  set_headers (<[key := value]> (headers r)) r.

(** Modelled from the spec: [request.put_all_headers(d)], absent like the
    above: the entries of [d] go into the header map and replace those of
    the same name. *)
Definition put_all_headers (d : Headers) (r : Request) : Request :=
  set_headers (d ∪ headers r) r.

(** The classes a response object can have. *)
Inductive ResponseClass : Type :=
| InstanceResponse
| BatchInstanceResponse
| ServiceListResponse
| SubscribeServiceResponse
| OtherResponse (class_name : pystr).

(** Modelled from the spec: a response object (the response classes are in
    naming/model/naming_response.py, not part of the sources at hand).  It
    has its class ([response.__class__]), the envelope of spec 4.2
    ([get_result_code()], [get_error_code()], [get_message()],
    [is_success()], four independent values) and the attributes the proxy
    reads from the typed responses. *)
Record Response : Type := {
  class_of : ResponseClass;
  resultCode : Z;
  errorCode : Z;
  message : pystr;
  success : bool;
  serviceInfo : option Service;
  count : Z;
  serviceNames : list pystr
}.

(** Modelled from the spec: [Credentials] (spec 3: [(accessKeyId,
    accessKeySecret, securityToken?)]), read through [get_access_key_id()],
    [get_access_key_secret()] and [get_security_token()].  Every part may be
    [None]. *)
Record Credentials : Type := {
  access_key_id : option pystr;
  access_key_secret : option pystr;
  security_token : option pystr
}.

Record GRPCConfig : Type := { grpc_timeout : Z }.

(** [ClientConfig]; [credentials] is what
    [credentials_provider.get_credentials()] answers. *)
Record ClientConfig : Type := {
  namespace_id : pystr;
  app_name : pystr;
  credentials : Credentials;
  grpc_config : GRPCConfig
}.

(** The transport client.  [send] is the awaited call
    [rpc_client.request(request, timeout)] (spec 6: [send(request, timeout)
    -> response]): it returns a response or raises. *)
Record RpcClient : Type := {
  send : Request -> Z -> Outcome Response;
  is_running : bool
}.

(** [NacosServerConnector.inject_security_info(headers)] updates the header
    dictionary it is given, or raises. *)
Record NacosServerConnector : Type := {
  inject_security_info : Headers -> Outcome Headers
}.

(** The proxy object.  [rpc_client] is [None] from [__init__] until
    [start()] has created the client. *)
Record NamingGRPCClientProxy : Type := {
  client_config : ClientConfig;
  rpc_client : option RpcClient;
  proxy_namespace_id : pystr;
  nacos_server_connector : NacosServerConnector
}.

(** What the module imports from the rest of the SDK and only uses:
    the error code [SERVER_ERROR] (common/nacos_exception.py),
    [get_group_name] (naming/util/naming_client_util.py) and the subclass
    relation [issubclass] on the response classes. *)
Class Imports : Type := {
  SERVER_ERROR : Z;
  get_group_name : pystr -> pystr -> pystr;
  issubclass : ResponseClass -> ResponseClass -> bool
}.

(** Modelled from the spec: [Constants.SERVICE_INFO_SPLITER]
    (common/constants.py), the separator written ["@@"] in the signing
    string [nowMillis + "@@" + serviceKeyString]. *)
Definition SERVICE_INFO_SPLITER : pystr := PyStr.lit "@@".

(* ===================================================================== *)
(** * State, trace and the monad of the methods *)
(* ===================================================================== *)

Inductive LogLevel : Type := INFO | ERROR.

(** A log record is kept as its text and its arguments, before the logging
    module renders them; for a text built with [+ str(e)] the exception is
    the argument. *)
Inductive LogArg : Type :=
| LogStr (s : pystr)
| LogInt (n : Z)
| LogInstance (i : Instance)
| LogInstances (l : list Instance)
| LogResponse (r : Response)
| LogExn (e : PyExn).

(** The observable actions of the proxy, in the order they happen. *)
Inductive Event : Type :=
| EvLog (level : LogLevel) (text : pystr) (args : list LogArg)
| EvCacheInstanceForRedo (service_name group_name : pystr) (instance : Instance)
| EvCacheInstancesForRedo (service_name group_name : pystr) (instances : list Instance)
| EvRemoveInstanceForRedo (service_name group_name : pystr)
| EvCacheSubscribeForRedo (full_service_name clusters : pystr)
| EvRemoveSubscriberForRedo (full_service_name clusters : pystr)
| EvRpcRequest (r : Request) (timeout : Z)
| EvRpcResponse (r : Response)
| EvShutdown.

(** What the redo table keeps for a service key. *)
Inductive RedoData : Type :=
| RedoInstance (instance : Instance)
| RedoInstances (instances : list Instance).

(** The state around the proxy: the clock, the trace of events (the oldest
    first) and the two redo tables of the connection event listener. *)
Record World : Type := {
  now : Z;
  events : list Event;
  redo_registrations : gmap pystr RedoData;
  redo_subscriptions : gmap (pystr * pystr) unit
}.

(** An [async] method: from the world it starts in, an outcome and the world
    it leaves. *)
Definition M (A : Type) : Type := World -> Outcome A * World.

Definition ret {A} (a : A) : M A := fun w => (Returns a, w).

Definition raise {A} (e : PyExn) : M A := fun w => (Raises e, w).

Definition bind {A B} (c : M A) (k : A -> M B) : M B :=
  fun w =>
    match c w with
    | (Returns a, w') => k a w'
    | (Raises e, w') => (Raises e, w')
    end.

Notation "x <- c ;; k" := (bind c (fun x => k))
  (at level 100, c at next level, right associativity).
Notation "c ;; k" := (bind c (fun _ => k))
  (at level 100, right associativity).

Definition lift {A} (o : Outcome A) : M A := fun w => (o, w).

(** [try: body except ...]: [handler e] is the body of the [except] clause
    that matches [e], or [None] when no clause does. *)
Definition try_except {A} (body : M A) (handler : PyExn -> option (M A)) : M A :=
  fun w =>
    match body w with
    | (Returns a, w') => (Returns a, w')
    | (Raises e, w') =>
        match handler e with
        | Some h => h w'
        | None => (Raises e, w')
        end
    end.

(** The world after the events [l] have happened. *)
Definition add_events (l : list Event) (w : World) : World :=
  {| now := now w; events := events w ++ l;
     redo_registrations := redo_registrations w;
     redo_subscriptions := redo_subscriptions w |}.

(** The events that happened between the worlds [w] and [w']. *)
Definition new_events (w w' : World) : list Event :=
  drop (length (events w)) (events w').

Definition emit (e : Event) : M unit :=
  fun w => (Returns tt, add_events [e] w).

Definition logger_info (text : string) (args : list LogArg) : M unit :=
  emit (EvLog INFO (PyStr.lit text) args).

Definition logger_error (text : string) (args : list LogArg) : M unit :=
  emit (EvLog ERROR (PyStr.lit text) args).

(** [get_current_time_millis()]. *)
Definition get_current_time_millis : M Z := fun w => (Returns (now w), w).

Definition with_redo_registrations (t : gmap pystr RedoData) (w : World) : World :=
  {| now := now w; events := events w; redo_registrations := t;
     redo_subscriptions := redo_subscriptions w |}.

Definition with_redo_subscriptions (t : gmap (pystr * pystr) unit) (w : World) : World :=
  {| now := now w; events := events w; redo_registrations := redo_registrations w;
     redo_subscriptions := t |}.

Definition set_redo_registrations (f : gmap pystr RedoData -> gmap pystr RedoData) : M unit :=
  fun w => (Returns tt, with_redo_registrations (f (redo_registrations w)) w).

Definition set_redo_subscriptions
    (f : gmap (pystr * pystr) unit -> gmap (pystr * pystr) unit) : M unit :=
  fun w => (Returns tt, with_redo_subscriptions (f (redo_subscriptions w)) w).

(* ===================================================================== *)
(** * The connection event listener: redo bookkeeping *)
(* ===================================================================== *)

Section Proxy.

Context `{Imports}.

(** Modelled from the spec: [cache_instance_for_redo] of
    [NamingGrpcConnectionEventListener], whose file is not part of the
    sources at hand.  Spec 4.3, [recordRegistration(key, instance)]:
    insert or replace the redo entry of the key, the key being the composite
    [get_group_name(service_name, group_name)]. *)
Definition cache_instance_for_redo (service_name group_name : pystr)
    (instance : Instance) : M unit :=
  emit (EvCacheInstanceForRedo service_name group_name instance);;
  set_redo_registrations
    (fun t => <[get_group_name service_name group_name := RedoInstance instance]> t).

(** Modelled from the spec: [cache_instances_for_redo], absent like the
    above.  Spec 4.3: for a batch registration the whole instance list is
    replaced under the same key. *)
Definition cache_instances_for_redo (service_name group_name : pystr)
    (instances : list Instance) : M unit :=
  emit (EvCacheInstancesForRedo service_name group_name instances);;
  set_redo_registrations
    (fun t => <[get_group_name service_name group_name := RedoInstances instances]> t).

(** Modelled from the spec: [remove_instance_for_redo], absent like the
    above.  Spec 4.3, [recordUnregistration(key)]: the redo entry of the key
    is removed entirely. *)
Definition remove_instance_for_redo (service_name group_name : pystr) : M unit :=
  emit (EvRemoveInstanceForRedo service_name group_name);;
  set_redo_registrations
    (fun t => delete (get_group_name service_name group_name) t).

(** Modelled from the spec: [cache_subscribe_for_redo], absent like the
    above.  Spec 4.3, [recordSubscription(key, clusters)]: an entry keyed by
    the pair. *)
Definition cache_subscribe_for_redo (full_service_name clusters : pystr) : M unit :=
  emit (EvCacheSubscribeForRedo full_service_name clusters);;
  set_redo_subscriptions (fun t => <[(full_service_name, clusters) := tt]> t).

(** Modelled from the spec: [remove_subscriber_for_redo], absent like the
    above.  Spec 4.3, [removeSubscription(key, clusters)]. *)
Definition remove_subscriber_for_redo (full_service_name clusters : pystr) : M unit :=
  emit (EvRemoveSubscriberForRedo full_service_name clusters);;
  set_redo_subscriptions (fun t => delete (full_service_name, clusters) t).

(* ===================================================================== *)
(** * The methods of [NamingGRPCClientProxy] *)
(* ===================================================================== *)

(** The attribute access [self.rpc_client.<attr>]: an [AttributeError] while
    [rpc_client] is still [None]. *)
Definition get_rpc_client (self : NamingGRPCClientProxy) (attr : string) : M RpcClient :=
  match rpc_client self with
  | Some c => ret c
  | None =>
      raise (PyException (PyStr.lit "AttributeError")
               (PyStr.lit "'NoneType' object has no attribute '" ++ PyStr.lit attr
                ++ PyStr.lit "'"))
  end.

(** [await self.rpc_client.request(request, timeout)]: the request leaves,
    then the call returns a response or raises. *)
Definition rpc_request (c : RpcClient) (r : Request) (timeout : Z) : M Response :=
  emit (EvRpcRequest r timeout);;
  response <- lift (send c r timeout);;
  emit (EvRpcResponse response);;
  ret response.

(** Lines 67-82: the signing headers.  Nothing is added unless both the
    access key id and the access key secret are true values. *)
Definition sign (self : NamingGRPCClientProxy) (request : Request) : M Request :=
  let credentials := credentials (client_config self) in
  match access_key_id credentials, access_key_secret credentials with
  | Some ak, Some sk =>
      if PyStr.truthy ak && PyStr.truthy sk then
        let service_name := get_group_name (serviceName request) (groupName request) in
        millis <- get_current_time_millis;;
        let sign_str :=
          if PyStr.truthy (PyStr.strip service_name)
          then PyStr.str_of_int millis ++ SERVICE_INFO_SPLITER ++ service_name
          else PyStr.str_of_int millis in
        key <- lift (PyStr.encode sk);;
        msg <- lift (PyStr.encode sign_str);;
        let signature :=
          PyStr.strip (PyStr.decode (Base64.encodebytes (HMAC.sha1 key msg))) in
        let request :=
          put_all_headers
            (<[PyStr.lit "ak" := ak]>
               (<[PyStr.lit "data" := sign_str]>
                  (<[PyStr.lit "signature" := signature]> ∅)))
            request in
        match security_token credentials with
        | Some token =>
            if PyStr.truthy token
            then ret (put_header (PyStr.lit "Spas-SecurityToken") token request)
            else ret request
        | None => ret request
        end
      else ret request
  | _, _ => ret request
  end.

(** [request_naming_server(request, response_class)], lines 63-95. *)
Definition request_naming_server (self : NamingGRPCClientProxy)
    (request : Request) (response_class : ResponseClass) : M Response :=
  try_except
    (h <- lift (inject_security_info (nacos_server_connector self) (headers request));;
     let request := set_headers h request in
     request <- sign self request;;
     client <- get_rpc_client self "request";;
     response <- rpc_request client request (grpc_timeout (grpc_config (client_config self)));;
     if negb (resultCode response =? 200) then
       raise (NacosException (errorCode response) (message response))
     else if issubclass (class_of response) response_class then
       ret response
     else
       raise (NacosException SERVER_ERROR (PyStr.lit " Server return invalid response")))
    (fun e =>
       match e with
       | NacosException _ _ =>
           Some (logger_error "failed to invoke nacos naming server : " [LogExn e];;
                 raise e)
       | PyException _ text =>
           Some (logger_error "failed to invoke nacos naming server : " [LogExn e];;
                 raise (NacosException SERVER_ERROR
                          (PyStr.lit "Request nacos naming server failed: " ++ text)))
       | PyBaseException _ _ => None
       end).

(** [register_instance(service_name, group_name, instance)], lines 97-108. *)
Definition register_instance (self : NamingGRPCClientProxy)
    (service_name group_name : pystr) (instance : Instance) : M bool :=
  logger_info "register instance service_name:%s, group_name:%s, namespace:%s, instance:%s"
    [LogStr service_name; LogStr group_name; LogStr (proxy_namespace_id self);
     LogInstance instance];;
  cache_instance_for_redo service_name group_name instance;;
  let request :=
    InstanceRequest (proxy_namespace_id self) service_name group_name instance
      REGISTER_INSTANCE in
  response <- request_naming_server self request InstanceResponse;;
  ret (success response).

(** [batch_register_instance], lines 110-122. *)
Definition batch_register_instance (self : NamingGRPCClientProxy)
    (service_name group_name : pystr) (instances : list Instance) : M bool :=
  logger_info "batch register instance service_name:%s, group_name:%s, namespace:%s,instances:%s"
    [LogStr service_name; LogStr group_name; LogStr (proxy_namespace_id self);
     LogInstances instances];;
  cache_instances_for_redo service_name group_name instances;;
  let request :=
    BatchInstanceRequest (proxy_namespace_id self) service_name group_name instances
      BATCH_REGISTER_INSTANCE in
  response <- request_naming_server self request BatchInstanceResponse;;
  ret (success response).

(** [deregister_instance], lines 124-135. *)
Definition deregister_instance (self : NamingGRPCClientProxy)
    (service_name group_name : pystr) (instance : Instance) : M bool :=
  logger_info "deregister instance ip:%s, port:%s, service_name:%s, group_name:%s, namespace:%s"
    [LogStr (ip instance); LogInt (port instance); LogStr service_name;
     LogStr group_name; LogStr (proxy_namespace_id self)];;
  let request :=
    InstanceRequest (proxy_namespace_id self) service_name group_name instance
      DE_REGISTER_INSTANCE in
  response <- request_naming_server self request InstanceResponse;;
  remove_instance_for_redo service_name group_name;;
  ret (success response).

(** [list_services(param)], lines 137-149. *)
Definition list_services (self : NamingGRPCClientProxy) (param : ListServiceParam)
    : M ServiceList :=
  logger_info "listService group_name:%s, namespace:%s"
    [LogStr (group_name param); LogStr (param_namespace_id param)];;
  let request :=
    ServiceListRequest (param_namespace_id param) (group_name param) []
      (page_no param) (page_size param) in
  response <- request_naming_server self request ServiceListResponse;;
  ret {| ServiceList_count := count response; services := serviceNames response |}.

(** [subscribe(service_name, group_name, clusters)], lines 151-172.  The
    result is an [Optional[Service]]. *)
Definition subscribe (self : NamingGRPCClientProxy)
    (service_name group_name clusters : pystr) : M (option Service) :=
  logger_info "subscribe service_name:%s, group_name:%s, clusters:%s, namespace:%s"
    [LogStr service_name; LogStr group_name; LogStr clusters;
     LogStr (proxy_namespace_id self)];;
  cache_subscribe_for_redo (get_group_name service_name group_name) clusters;;
  let request :=
    SubscribeServiceRequest (proxy_namespace_id self) group_name service_name clusters true in
  let request := put_header (PyStr.lit "app") (app_name (client_config self)) request in
  response <- request_naming_server self request SubscribeServiceResponse;;
  if negb (success response) then
    logger_error
      "failed to subscribe service_name:%s, group_name:%s, clusters:%s, namespace:%s, response:%s"
      [LogStr service_name; LogStr group_name; LogStr clusters;
       LogStr (proxy_namespace_id self); LogResponse response];;
    ret None
  else
    ret (serviceInfo response).

(** [unsubscribe(service_name, group_name, clusters)], lines 174-186. *)
Definition unsubscribe (self : NamingGRPCClientProxy)
    (service_name group_name clusters : pystr) : M unit :=
  logger_info "unSubscribe service_name:%s, group_name:%s, clusters:%s, namespace:%s"
    [LogStr service_name; LogStr group_name; LogStr clusters;
     LogStr (proxy_namespace_id self)];;
  remove_subscriber_for_redo (get_group_name service_name group_name) clusters;;
  _ <- request_naming_server self
         (SubscribeServiceRequest (proxy_namespace_id self) group_name service_name
            clusters false)
         SubscribeServiceResponse;;
  ret tt.

(** [close_client()], lines 188-190. *)
Definition close_client (self : NamingGRPCClientProxy) : M unit :=
  logger_info "close Nacos python naming grpc client..." [];;
  _ <- get_rpc_client self "shutdown";;
  emit EvShutdown.

(** [server_health()], lines 192-193. *)
Definition server_health (self : NamingGRPCClientProxy) : Outcome bool :=
  match rpc_client self with
  | Some c => Returns (is_running c)
  | None =>
      Raises (PyException (PyStr.lit "AttributeError")
                (PyStr.lit "'NoneType' object has no attribute 'is_running'"))
  end.

End Proxy.

(* ===================================================================== *)
(** * Reading a trace *)
(* ===================================================================== *)

(** In the trace [l], every event of kind [Q] comes after an event of kind
    [P]. *)
Definition happens_before (P Q : Event -> Prop) (l : list Event) : Prop :=
  forall l1 e l2, l = l1 ++ e :: l2 -> Q e -> exists e', e' ∈ l1 /\ P e'.

Definition is_rpc_request (e : Event) : Prop :=
  exists r timeout, e = EvRpcRequest r timeout.

Definition is_rpc_response (e : Event) : Prop :=
  exists r, e = EvRpcResponse r.

Definition is_redo_removal (e : Event) : Prop :=
  exists service_name group_name, e = EvRemoveInstanceForRedo service_name group_name.

(** The names of the four signing headers. *)
Definition signing_headers : list pystr :=
  [PyStr.lit "ak"; PyStr.lit "data"; PyStr.lit "signature"; PyStr.lit "Spas-SecurityToken"].

(** Both parts of the access key are present and not empty: the condition of
    line 68. *)
Definition has_access_key (c : Credentials) : bool :=
  PyStr.truthy_opt (access_key_id c) && PyStr.truthy_opt (access_key_secret c).

(* ===================================================================== *)
(** * The runs of [request_naming_server] *)
(* ===================================================================== *)

Section Runs.

Context `{Imports}.

(** The steps of [request_naming_server] up to the dispatch (line 65 to the
    attribute access of line 84): the transport client and the request as it
    leaves. *)
Definition before_dispatch (self : NamingGRPCClientProxy) (request : Request)
    : M (RpcClient * Request) :=
  h <- lift (inject_security_info (nacos_server_connector self) (headers request));;
  request <- sign self (set_headers h request);;
  client <- get_rpc_client self "request";;
  ret (client, request).

Definition error_log (e : PyExn) : Event :=
  EvLog ERROR (PyStr.lit "failed to invoke nacos naming server : ") [LogExn e].

(** The exception that leaves [request_naming_server] when [e] is raised
    inside its [try] block (lines 90-95). *)
Definition reraised (e : PyExn) : PyExn :=
  match e with
  | NacosException _ _ => e
  | PyException _ text =>
      NacosException SERVER_ERROR (PyStr.lit "Request nacos naming server failed: " ++ text)
  | PyBaseException _ _ => e
  end.

(** What the [except] clauses log for it. *)
Definition logged (e : PyExn) : list Event :=
  match e with
  | NacosException _ _ | PyException _ _ => [error_log e]
  | PyBaseException _ _ => []
  end.

Definition invalid_response : PyExn :=
  NacosException SERVER_ERROR (PyStr.lit " Server return invalid response").

(** The five ways a call [request_naming_server(request, response_class)]
    started in the world [w] can go, each with the events it adds to the
    trace and its outcome. *)
Inductive rns_run (self : NamingGRPCClientProxy) (request : Request)
    (response_class : ResponseClass) (w : World)
    : list Event -> Outcome Response -> Prop :=
| run_unsent e :
    (before_dispatch self request w).1 = Raises e ->
    rns_run self request response_class w (logged e) (Raises (reraised e))
| run_transport_raised c q e :
    (before_dispatch self request w).1 = Returns (c, q) ->
    send c q (grpc_timeout (grpc_config (client_config self))) = Raises e ->
    rns_run self request response_class w
      (EvRpcRequest q (grpc_timeout (grpc_config (client_config self))) :: logged e)
      (Raises (reraised e))
| run_rejected c q r :
    (before_dispatch self request w).1 = Returns (c, q) ->
    send c q (grpc_timeout (grpc_config (client_config self))) = Returns r ->
    resultCode r <> 200 ->
    rns_run self request response_class w
      [EvRpcRequest q (grpc_timeout (grpc_config (client_config self)));
       EvRpcResponse r;
       error_log (NacosException (errorCode r) (message r))]
      (Raises (NacosException (errorCode r) (message r)))
| run_invalid c q r :
    (before_dispatch self request w).1 = Returns (c, q) ->
    send c q (grpc_timeout (grpc_config (client_config self))) = Returns r ->
    resultCode r = 200 ->
    issubclass (class_of r) response_class = false ->
    rns_run self request response_class w
      [EvRpcRequest q (grpc_timeout (grpc_config (client_config self)));
       EvRpcResponse r;
       error_log invalid_response]
      (Raises invalid_response)
| run_accepted c q r :
    (before_dispatch self request w).1 = Returns (c, q) ->
    send c q (grpc_timeout (grpc_config (client_config self))) = Returns r ->
    resultCode r = 200 ->
    issubclass (class_of r) response_class = true ->
    rns_run self request response_class w
      [EvRpcRequest q (grpc_timeout (grpc_config (client_config self)));
       EvRpcResponse r]
      (Returns r).

(** The events a run can add: they are dispatches, answers and error logs. *)
Definition rns_event (e : Event) : Prop :=
  match e with
  | EvRpcRequest _ _ | EvRpcResponse _ | EvLog ERROR _ _ => True
  | _ => False
  end.

(** The transport-level faults of a call: an exception [e] raised by a
    collaborator inside the [try] block, either before the dispatch (by
    [inject_security_info], by [str.encode] or by the attribute access on a
    missing client) or by the transport call itself. *)
Definition fault_raised (self : NamingGRPCClientProxy) (req : Request) (w : World)
    (e : PyExn) : Prop :=
  (before_dispatch self req w).1 = Raises e
  \/ exists c q,
       (before_dispatch self req w).1 = Returns (c, q)
       /\ send c q (grpc_timeout (grpc_config (client_config self))) = Raises e.

End Runs.

(* ===================================================================== *)
(** * Construction of the proxy, and more readings of a trace *)
(* ===================================================================== *)

(** [__init__(client_config, http_client, service_info_cache)], lines 35-47,
    as far as the methods below look at the object: no client yet, the
    namespace of the configuration, and the server connector that
    [NacosServerConnector(logger, client_config, http_client)] builds, which
    is handed in as [connector]. *)
Definition __init__ (client_config : ClientConfig) (connector : NacosServerConnector)
    : NamingGRPCClientProxy :=
  {| client_config := client_config;
     rpc_client := None;
     proxy_namespace_id := namespace_id client_config;
     nacos_server_connector := connector |}.

Definition is_dispatch (e : Event) : bool :=
  match e with EvRpcRequest _ _ => true | _ => false end.

Definition is_answer (e : Event) : bool :=
  match e with EvRpcResponse _ => true | _ => false end.

Definition is_error_log (e : Event) : bool :=
  match e with EvLog ERROR _ _ => true | _ => false end.

(** How many events of a kind a trace holds. *)
Definition count_events (p : Event -> bool) (l : list Event) : nat :=
  length (List.filter p l).


Definition is_nacos_exception (e : PyExn) : bool :=
  match e with NacosException _ _ => true | _ => false end.

Definition is_base_exception (e : PyExn) : bool :=
  match e with PyBaseException _ _ => true | _ => false end.

(* ===================================================================== *)
(** * Sample objects for the examples *)
(* ===================================================================== *)

Module Sample.

(** Modelled from the spec: [get_group_name] (naming/util/naming_client_util.py,
    not part of the sources at hand).  Spec 3: the composite key is
    [group@@serviceName], or the bare [serviceName] when the group is empty. *)
Definition get_group_name (service_name group_name : pystr) : pystr :=
  if PyStr.truthy group_name
  then group_name ++ SERVICE_INFO_SPLITER ++ service_name
  else service_name.

Definition class_eqb (a b : ResponseClass) : bool :=
  match a, b with
  | InstanceResponse, InstanceResponse
  | BatchInstanceResponse, BatchInstanceResponse
  | ServiceListResponse, ServiceListResponse
  | SubscribeServiceResponse, SubscribeServiceResponse => true
  | OtherResponse x, OtherResponse y => bool_decide (x = y)
  | _, _ => false
  end.

(** A sample of the imports: server error code 500, response classes without
    subclasses. *)
Definition imports : Imports :=
  Build_Imports 500 get_group_name class_eqb.

Definition instance : Instance :=
  {| ip := PyStr.lit "10.0.0.1"; port := 8080; clusterName := PyStr.lit "DEFAULT";
     healthy := true; enabled := true; ephemeral := true; metadata := ∅ |}.

Definition service : Service :=
  {| name := PyStr.lit "svc-a"; service_groupName := PyStr.lit "DEFAULT_GROUP";
     service_clusters := []; hosts := [instance] |}.

Definition signed_credentials : Credentials :=
  {| access_key_id := Some (PyStr.lit "AK"); access_key_secret := Some (PyStr.lit "secret");
     security_token := None |}.

Definition no_credentials : Credentials :=
  {| access_key_id := None; access_key_secret := None; security_token := None |}.

Definition config (c : Credentials) : ClientConfig :=
  {| namespace_id := PyStr.lit "public"; app_name := PyStr.lit "demo-app";
     credentials := c; grpc_config := {| grpc_timeout := 3000 |} |}.

(** A transport that answers every request the same way. *)
Definition client (answer : Outcome Response) : RpcClient :=
  {| send := fun _ _ => answer; is_running := true |}.

(** A connector that leaves the headers as they are. *)
Definition connector : NacosServerConnector :=
  {| inject_security_info := fun h => Returns h |}.

Definition proxy (c : Credentials) (answer : Outcome Response) : NamingGRPCClientProxy :=
  {| client_config := config c; rpc_client := Some (client answer);
     proxy_namespace_id := PyStr.lit "public"; nacos_server_connector := connector |}.

Definition response (cls : ResponseClass) (result_code error_code : Z) (msg : string)
    (ok : bool) : Response :=
  {| class_of := cls; resultCode := result_code; errorCode := error_code;
     message := PyStr.lit msg; success := ok; serviceInfo := Some service;
     count := 0; serviceNames := [] |}.

Definition world : World :=
  {| now := 1700000000000; events := []; redo_registrations := ∅;
     redo_subscriptions := ∅ |}.

Definition svc : pystr := PyStr.lit "svc-a".
Definition grp : pystr := PyStr.lit "DEFAULT_GROUP".

(** A world in which the sample instance is registered. *)
Definition registered_world : World :=
  {| now := 1700000000000; events := [];
     redo_registrations := {[ get_group_name svc grp := RedoInstance instance ]};
     redo_subscriptions := ∅ |}.

Definition register_request : Request :=
  InstanceRequest (PyStr.lit "public") svc grp instance REGISTER_INSTANCE.

(** The sample register request as it leaves a proxy with the sample access
    key, at the time of the sample world. *)
Definition signed_register_request : Request :=
  put_all_headers
    (<[PyStr.lit "ak" := PyStr.lit "AK"]>
       (<[PyStr.lit "data" := PyStr.lit "1700000000000@@DEFAULT_GROUP@@svc-a"]>
          (<[PyStr.lit "signature" := PyStr.lit "Fn8oIOJxgmkLrSfTwjO5UWl9avI="]> ∅)))
    register_request.

(** An access key with a security token. *)
Definition token_credentials : Credentials :=
  {| access_key_id := Some (PyStr.lit "AK"); access_key_secret := Some (PyStr.lit "secret");
     security_token := Some (PyStr.lit "sts-token") |}.


(** A proxy as [__init__] leaves it. *)
Definition fresh_proxy : NamingGRPCClientProxy := __init__ (config no_credentials) connector.

Definition instance2 : Instance :=
  {| ip := PyStr.lit "10.0.0.2"; port := 8081; clusterName := PyStr.lit "DEFAULT";
     healthy := true; enabled := true; ephemeral := true; metadata := ∅ |}.

Definition list_param : ListServiceParam :=
  {| param_namespace_id := PyStr.lit "other-ns"; group_name := grp; page_no := 1;
     page_size := 20 |}.

Definition list_answer (flag : bool) : Response :=
  {| class_of := ServiceListResponse; resultCode := 200; errorCode := 0;
     message := []; success := flag; serviceInfo := None;
     count := 2; serviceNames := [PyStr.lit "svc-a"; PyStr.lit "svc-b"] |}.

(** The sample register request as it leaves a proxy whose credentials hold
    a security token as well. *)
Definition signed_token_request : Request :=
  put_header (PyStr.lit "Spas-SecurityToken") (PyStr.lit "sts-token")
    signed_register_request.

(** A connector whose login fails. *)
Definition failing_connector : NacosServerConnector :=
  {| inject_security_info := fun _ =>
       Raises (PyException (PyStr.lit "ClientConnectorError") (PyStr.lit "login failed")) |}.

Definition batch_answer : Response := response BatchInstanceResponse 200 0 "" true.

(** A server that accepts the request. *)
Definition ok : Response := response InstanceResponse 200 0 "" true.

(** A server that rejects the request: result code 500, error code 403. *)
Definition rejection : Response := response InstanceResponse 500 403 "overflow" false.

End Sample.

(** Known answers, as a check of the primitives; a digest is read as one
    big-endian number. *)
Module KnownAnswers.

Example sha1_empty :
  SHA1.be_word (SHA1.digest []) = 0xda39a3ee5e6b4b0d3255bfef95601890afd80709.
Proof. vm_compute. reflexivity. Qed.

Example sha1_abc :
  SHA1.be_word (SHA1.digest (PyStr.lit "abc")) = 0xa9993e364706816aba3e25717850c26c9cd0d89d.
Proof. vm_compute. reflexivity. Qed.

Example sha1_two_blocks :
  SHA1.be_word (SHA1.digest (PyStr.lit "abcdbcdecdefdefgefghfghighijhijkijkljklmklmnlmnomnopnopq"))
  = 0x84983e441c3bd26ebaae4aa1f95129e5e54670f1.
Proof. vm_compute. reflexivity. Qed.

Example hmac_sha1_fox :
  SHA1.be_word (HMAC.sha1 (PyStr.lit "key") (PyStr.lit "The quick brown fox jumps over the lazy dog"))
  = 0xde7c9b85b8b78aa6bc8a7a36f70a90701c9db4d9.
Proof. vm_compute. reflexivity. Qed.

Example b64_foobar :
  Base64.encodebytes (PyStr.lit "foobar") = PyStr.lit "Zm9vYmFy" ++ [0x0A].
Proof. vm_compute. reflexivity. Qed.

Example b64_fooba :
  Base64.encodebytes (PyStr.lit "fooba") = PyStr.lit "Zm9vYmE=" ++ [0x0A].
Proof. vm_compute. reflexivity. Qed.

Example b64_empty : Base64.encodebytes [] = [].
Proof. reflexivity. Qed.

Example str_of_int_examples :
  PyStr.str_of_int 1700000000000 = PyStr.lit "1700000000000"
  /\ PyStr.str_of_int 0 = PyStr.lit "0"
  /\ PyStr.str_of_int (-42) = PyStr.lit "-42".
Proof. vm_compute. repeat split. Qed.

Example strip_example :
  PyStr.strip (PyStr.lit "  a b " ++ [0x0A]) = PyStr.lit "a b".
Proof. vm_compute. reflexivity. Qed.

Example encode_surrogate :
  PyStr.encode (PyStr.lit "ab" ++ [0xD800; 0xDC01; 0x41])
  = Raises (PyException (PyStr.lit "UnicodeEncodeError")
      (PyStr.lit "'utf-8' codec can't encode characters in position 2-3: surrogates not allowed"))
  /\ PyStr.encode [0x61; 0xDC80; 0x62]
  = Raises (PyException (PyStr.lit "UnicodeEncodeError")
      (PyStr.lit "'utf-8' codec can't encode character '\udc80' in position 1: surrogates not allowed"))
  /\ PyStr.encode [0xE9; 0x20AC; 0x10348]
  = Returns [0xC3; 0xA9; 0xE2; 0x82; 0xAC; 0xF0; 0x90; 0x8D; 0x88].
Proof. vm_compute. repeat split. Qed.

End KnownAnswers.

(** Sample runs of the methods. *)
Module SampleRuns.

Import Sample.

Example register_ok :
  let '(res, w) :=
    @register_instance imports (proxy no_credentials (Returns ok)) svc grp instance world in
  res = Returns true
  /\ redo_registrations w !! (grp ++ PyStr.lit "@@" ++ svc) = Some (RedoInstance instance)
  /\ exists l,
       events w = [l; EvCacheInstanceForRedo svc grp instance;
                   EvRpcRequest register_request 3000; EvRpcResponse ok].
Proof. vm_compute. repeat split. by eexists. Qed.

Example deregister_ok :
  let '(res, w) :=
    @deregister_instance imports (proxy no_credentials (Returns ok)) svc grp instance
      registered_world in
  res = Returns true
  /\ redo_registrations w = ∅
  /\ exists l q,
       events w = [l; EvRpcRequest q 3000; EvRpcResponse ok; EvRemoveInstanceForRedo svc grp].
Proof. vm_compute. repeat split. by eexists _, _. Qed.

(** A cancelled call: the [CancelledError] passes through unlogged, and the
    redo entry of the registration stays. *)
Example register_cancelled :
  let cancelled := PyBaseException (PyStr.lit "CancelledError") [] in
  let '(res, w) :=
    @register_instance imports (proxy no_credentials (Raises cancelled)) svc grp instance
      world in
  res = Raises cancelled
  /\ redo_registrations w !! (grp ++ PyStr.lit "@@" ++ svc) = Some (RedoInstance instance)
  /\ exists l,
       events w = [l; EvCacheInstanceForRedo svc grp instance;
                   EvRpcRequest register_request 3000].
Proof. vm_compute. repeat split. by eexists. Qed.

(** A secret that UTF-8 cannot encode: the fault is wrapped and nothing is
    dispatched. *)
Example secret_not_encodable :
  let creds :=
    {| access_key_id := Some (PyStr.lit "AK"); access_key_secret := Some [0x73; 0xDC80];
       security_token := None |} in
  let '(res, w) :=
    @request_naming_server imports (proxy creds (Returns ok)) register_request
      InstanceResponse world in
  res = Raises (NacosException 500
          (PyStr.lit "Request nacos naming server failed: 'utf-8' codec can't encode character '\udc80' in position 1: surrogates not allowed"))
  /\ exists l, events w = [l].
Proof. vm_compute. split; [reflexivity | by eexists]. Qed.

(** A proxy that has not been started. *)
Example not_started :
  let self :=
    {| client_config := config no_credentials; rpc_client := None;
       proxy_namespace_id := PyStr.lit "public"; nacos_server_connector := connector |} in
  (@request_naming_server imports self register_request InstanceResponse world).1
  = Raises (NacosException 500
      (PyStr.lit "Request nacos naming server failed: 'NoneType' object has no attribute 'request'"))
  /\ server_health self
     = Raises (PyException (PyStr.lit "AttributeError")
         (PyStr.lit "'NoneType' object has no attribute 'is_running'")).
Proof. vm_compute. split; reflexivity. Qed.

Example signed_request :
  let '(res, w) :=
    @request_naming_server imports (proxy signed_credentials (Returns ok)) register_request
      InstanceResponse world in
  exists q t r, events w = [EvRpcRequest q t; EvRpcResponse r]
  /\ headers q !! PyStr.lit "data" = Some (PyStr.lit "1700000000000@@DEFAULT_GROUP@@svc-a")
  /\ headers q !! PyStr.lit "signature" = Some (PyStr.lit "Fn8oIOJxgmkLrSfTwjO5UWl9avI=")
  /\ headers q !! PyStr.lit "ak" = Some (PyStr.lit "AK").
Proof. vm_compute. repeat eexists. Qed.

End SampleRuns.

(* ===================================================================== *)
(** * Worlds and traces *)
(* ===================================================================== *)

Lemma add_events_nil (w : World) : add_events [] w = w.
Proof. destruct w; unfold add_events; simpl. by rewrite app_nil_r. Qed.

Lemma add_events_app (l1 l2 : list Event) (w : World) :
  add_events l2 (add_events l1 w) = add_events (l1 ++ l2) w.
Proof. unfold add_events; simpl. by rewrite app_assoc. Qed.

Lemma new_events_add (l : list Event) (w : World) : new_events w (add_events l w) = l.
Proof. unfold new_events, add_events; simpl. by rewrite drop_app_length. Qed.

Lemma happens_before_cons_other (P Q : Event -> Prop) (e : Event) (l : list Event) :
  ~ Q e -> happens_before P Q l -> happens_before P Q (e :: l).
Proof.
  intros Hne Hl l1 x l2 Heq Hq.
  destruct l1 as [|y l1]; simpl in Heq; injection Heq as -> ->.
  - contradiction.
  - destruct (Hl l1 x l2 eq_refl Hq) as (e' & Hin & Hp).
    exists e'. split; [by apply list_elem_of_further | done].
Qed.

Lemma happens_before_cons_first (P Q : Event -> Prop) (e : Event) (l : list Event) :
  P e -> ~ Q e -> happens_before P Q (e :: l).
Proof.
  intros Hp Hne l1 x l2 Heq Hq.
  destruct l1 as [|y l1]; simpl in Heq; injection Heq as -> ->.
  - contradiction.
  - exists y. split; [apply list_elem_of_here | done].
Qed.

Lemma happens_before_none (P Q : Event -> Prop) (l : list Event) :
  (forall e, e ∈ l -> ~ Q e) -> happens_before P Q l.
Proof.
  intros Hno l1 x l2 -> Hq. exfalso. apply (Hno x); [|done].
  apply elem_of_app. right. apply list_elem_of_here.
Qed.

(* ===================================================================== *)
(** * Facts about signing and about the runs of [request_naming_server] *)
(* ===================================================================== *)

Section Facts.

Context `{Imports}.

(** Signing reads the clock and changes nothing. *)
Lemma sign_world (self : NamingGRPCClientProxy) (r : Request) (w : World) :
  (sign self r w).2 = w.
Proof.
  unfold sign.
  destruct (access_key_id _) as [ak|]; [|done].
  destruct (access_key_secret _) as [sk|]; [|done].
  destruct (PyStr.truthy ak && PyStr.truthy sk); [|done].
  unfold bind, get_current_time_millis, lift.
  destruct (PyStr.encode sk); [|done].
  destruct (PyStr.encode _); [|done].
  destruct (security_token _) as [tok|]; [|done].
  by destruct (PyStr.truthy tok).
Qed.

Lemma sign_eq (self : NamingGRPCClientProxy) (r : Request) (w : World) :
  sign self r w = ((sign self r w).1, w).
Proof. rewrite <- (sign_world self r w) at 3. by destruct (sign self r w). Qed.

(** Every call of [request_naming_server] is one of the runs of [rns_run]. *)
Lemma rns_sound (self : NamingGRPCClientProxy) (req : Request)
    (cls : ResponseClass) (w : World) :
  exists new res,
    request_naming_server self req cls w = (res, add_events new w)
    /\ rns_run self req cls w new res.
Proof.
  pose proof (run_unsent self req cls w) as Hunsent.
  pose proof (run_transport_raised self req cls w) as Hraised.
  pose proof (run_rejected self req cls w) as Hrej.
  pose proof (run_invalid self req cls w) as Hinv.
  pose proof (run_accepted self req cls w) as Hacc.
  unfold request_naming_server, try_except, bind.
  unfold before_dispatch, bind in *.
  unfold lift in *.
  destruct (inject_security_info _ _) as [h|e].
  - rewrite sign_eq in *. destruct (sign _ _ _).1 as [q|e].
    + unfold get_rpc_client in *. destruct (rpc_client self) as [c|].
      * simpl in *. unfold rpc_request, bind, lift, emit.
        destruct (send c q _) as [r|e] eqn:Hsend.
        -- simpl. destruct (resultCode r =? 200) eqn:Hcode; simpl.
           ++ apply Z.eqb_eq in Hcode.
              destruct (issubclass (class_of r) cls) eqn:Hsub.
              ** eexists _, (Returns r). rewrite add_events_app. split; [done|].
                 by eapply Hacc.
              ** eexists _, (Raises invalid_response).
                 unfold logger_error, bind, emit, raise; simpl.
                 rewrite !add_events_app. split; [done|]. by eapply Hinv.
           ++ apply Z.eqb_neq in Hcode.
              eexists _, (Raises (NacosException (errorCode r) (message r))).
              unfold logger_error, bind, emit, raise; simpl.
              rewrite !add_events_app. split; [done|]. by eapply Hrej.
        -- exists (EvRpcRequest q (grpc_timeout (grpc_config (client_config self))) :: logged e),
             (Raises (reraised e)).
           split; [|by eapply Hraised].
           destruct e; simpl; unfold logger_error, bind, emit, raise; simpl;
             by rewrite ?add_events_app.
      * simpl in *.
        eexists _, _. split; [|by eapply Hunsent].
        unfold logger_error, bind, emit, raise; simpl. done.
    + exists (logged e), (Raises (reraised e)). split; [|by eapply Hunsent].
      destruct e; simpl; unfold logger_error, bind, emit, raise; simpl;
        by rewrite ?add_events_nil.
  - exists (logged e), (Raises (reraised e)). split; [|by eapply Hunsent].
    destruct e; simpl; unfold logger_error, bind, emit, raise; simpl;
      by rewrite ?add_events_nil.
Qed.

Lemma elem_of_logged (e : PyExn) (ev : Event) :
  ev ∈ logged e -> ev = error_log e.
Proof.
  destruct e; simpl; intros Hin.
  - by apply list_elem_of_singleton in Hin.
  - by apply list_elem_of_singleton in Hin.
  - by apply elem_of_nil in Hin.
Qed.

(** What a run that shows the response [r] in its trace has done. *)
Lemma rns_run_response (self : NamingGRPCClientProxy) (req : Request)
    (cls : ResponseClass) (w : World) (new : list Event) (res : Outcome Response)
    (r : Response) :
  rns_run self req cls w new res ->
  EvRpcResponse r ∈ new ->
  (resultCode r <> 200
   /\ res = Raises (NacosException (errorCode r) (message r)))
  \/ (resultCode r = 200 /\ issubclass (class_of r) cls = false
      /\ res = Raises invalid_response)
  \/ (resultCode r = 200 /\ issubclass (class_of r) cls = true
      /\ res = Returns r
      /\ exists q, new = [EvRpcRequest q (grpc_timeout (grpc_config (client_config self)));
                          EvRpcResponse r]).
Proof.
  intros Hrun Hin.
  inversion Hrun as [e He | c q e Hb Hs | c q r' Hb Hs Hc | c q r' Hb Hs Hc Hi
                     | c q r' Hb Hs Hc Hi]; subst.
  - apply (elem_of_logged e) in Hin. discriminate.
  - apply elem_of_cons in Hin as [Hin | Hin]; [discriminate|].
    apply (elem_of_logged e) in Hin. discriminate.
  - left.
    repeat (apply elem_of_cons in Hin as [Hin | Hin]; try discriminate).
    + by injection Hin as ->.
    + by apply elem_of_nil in Hin.
  - right; left.
    repeat (apply elem_of_cons in Hin as [Hin | Hin]; try discriminate).
    + by injection Hin as ->.
    + by apply elem_of_nil in Hin.
  - right; right.
    repeat (apply elem_of_cons in Hin as [Hin | Hin]; try discriminate).
    + injection Hin as ->. eauto 10.
    + by apply elem_of_nil in Hin.
Qed.

(** A run that returns has dispatched one request and got its answer. *)
Lemma rns_run_returns (self : NamingGRPCClientProxy) (req : Request)
    (cls : ResponseClass) (w : World) (new : list Event) (r : Response) :
  rns_run self req cls w new (Returns r) ->
  resultCode r = 200 /\ issubclass (class_of r) cls = true
  /\ exists q, new = [EvRpcRequest q (grpc_timeout (grpc_config (client_config self)));
                      EvRpcResponse r].
Proof. intros Hrun. inversion Hrun; subst. eauto. Qed.

Lemma rns_run_events (self : NamingGRPCClientProxy) (req : Request)
    (cls : ResponseClass) (w : World) (new : list Event) (res : Outcome Response) :
  rns_run self req cls w new res -> forall e, e ∈ new -> rns_event e.
Proof.
  intros Hrun e Hin.
  inversion Hrun as [x He | c q x Hb Hs | c q r' Hb Hs Hc | c q r' Hb Hs Hc Hi
                     | c q r' Hb Hs Hc Hi]; subst;
    repeat (apply elem_of_cons in Hin as [-> | Hin]; [exact I|]);
    try (by apply elem_of_nil in Hin);
    by apply (elem_of_logged x) in Hin as ->.
Qed.

(** No call of [request_naming_server] lets an exception of another class
    of [Exception] through. *)
Lemma rns_never_raises_other (self : NamingGRPCClientProxy) (req : Request)
    (cls : ResponseClass) (w : World) (kind text : pystr) :
  (request_naming_server self req cls w).1 <> Raises (PyException kind text).
Proof.
  destruct (rns_sound self req cls w) as (new & res & -> & Hrun). simpl.
  inversion Hrun as [e He | c q e Hb Hs | | | ]; subst; try discriminate;
    by destruct e.
Qed.

(** C2 (amended): when the transport answers [r] with a result code other
    than 200, [request_naming_server] raises [NacosException] with the error
    code and the message of [r]; for a response with result code 500 and
    message "overflow" the exception carries the error code of the response
    (which need not be 500) and the message "overflow". *)
Theorem non_200_raises_with_error_code (self : NamingGRPCClientProxy) (req : Request)
    (cls : ResponseClass) (w : World) (r : Response) :
  EvRpcResponse r ∈ new_events w (request_naming_server self req cls w).2 ->
  resultCode r <> 200 ->
  (request_naming_server self req cls w).1
    = Raises (NacosException (errorCode r) (message r))
  /\ (resultCode r = 500 -> message r = PyStr.lit "overflow" ->
      (request_naming_server self req cls w).1
        = Raises (NacosException (errorCode r) (PyStr.lit "overflow"))).
Proof.
  intros Hin Hcode.
  destruct (rns_sound self req cls w) as (new & res & Heq & Hrun).
  rewrite Heq in *. simpl in *. rewrite new_events_add in Hin.
  destruct (rns_run_response _ _ _ _ _ _ _ Hrun Hin)
    as [[_ ->] | [[H200 _] | [H200 _]]]; try contradiction.
  split; [done|]. by intros _ <-.
Qed.

(** C5: when the transport answers [r] with result code 200,
    [request_naming_server] raises [NacosException(SERVER_ERROR, " Server
    return invalid response")] if the class of [r] is not a subclass of the
    expected class, and returns [r] if it is. *)
Theorem result_200_checks_response_class (self : NamingGRPCClientProxy) (req : Request)
    (cls : ResponseClass) (w : World) (r : Response) :
  EvRpcResponse r ∈ new_events w (request_naming_server self req cls w).2 ->
  resultCode r = 200 ->
  (issubclass (class_of r) cls = false ->
   (request_naming_server self req cls w).1
     = Raises (NacosException SERVER_ERROR (PyStr.lit " Server return invalid response")))
  /\ (issubclass (class_of r) cls = true ->
      (request_naming_server self req cls w).1 = Returns r).
Proof.
  intros Hin Hcode.
  destruct (rns_sound self req cls w) as (new & res & Heq & Hrun).
  rewrite Heq in *. simpl in *. rewrite new_events_add in Hin.
  destruct (rns_run_response _ _ _ _ _ _ _ Hrun Hin)
    as [[Hne _] | [(_ & Hsub & ->) | (_ & Hsub & -> & _)]];
    [contradiction | |]; split; intros Hs; first [reflexivity | congruence].
Qed.

(** C3 (amended): a fault raised inside [request_naming_server] by a
    collaborator (the security injection, [str.encode], the missing client
    or the transport) whose class is a subclass of [Exception] other than
    [NacosException] is logged and replaced by [NacosException(SERVER_ERROR,
    "Request nacos naming server failed: " + str(e))], which keeps the text
    [str(e)] of the fault; and no call ever lets an exception of such a
    class reach the caller.  The restriction to the subclasses of
    [Exception] is the amendment: [except Exception] does not catch an
    exception that derives from [BaseException] only, as
    [cancelled_transport_counterexample] shows. *)
Theorem transport_fault_is_wrapped (self : NamingGRPCClientProxy) (req : Request)
    (cls : ResponseClass) (w : World) (kind text : pystr) :
  fault_raised self req w (PyException kind text) ->
  (request_naming_server self req cls w).1
    = Raises (NacosException SERVER_ERROR
                (PyStr.lit "Request nacos naming server failed: " ++ text))
  /\ error_log (PyException kind text)
       ∈ new_events w (request_naming_server self req cls w).2
  /\ (forall kind' text',
        (request_naming_server self req cls w).1 <> Raises (PyException kind' text')).
Proof.
  intros Hfault.
  split; [|split; [|intros; apply rns_never_raises_other]].
  - destruct (rns_sound self req cls w) as (new & res & -> & Hrun). simpl.
    destruct Hfault as [Hb | (c & q & Hb & Hs)];
      inversion Hrun as [e He | c' q' e Hb' Hs' | c' q' r' Hb' Hs' | c' q' r' Hb' Hs'
                         | c' q' r' Hb' Hs']; subst; try congruence.
    + rewrite Hb in He. by injection He as <-.
    + rewrite Hb in Hb'. injection Hb' as <- <-. rewrite Hs in Hs'.
      by injection Hs' as <-.
  - destruct (rns_sound self req cls w) as (new & res & -> & Hrun). simpl.
    rewrite new_events_add.
    destruct Hfault as [Hb | (c & q & Hb & Hs)];
      inversion Hrun as [e He | c' q' e Hb' Hs' | c' q' r' Hb' Hs' | c' q' r' Hb' Hs'
                         | c' q' r' Hb' Hs']; subst; try congruence.
    + rewrite Hb in He. injection He as <-. apply list_elem_of_here.
    + rewrite Hb in Hb'. injection Hb' as <- <-. rewrite Hs in Hs'.
      injection Hs' as <-. apply list_elem_of_further, list_elem_of_here.
Qed.

End Facts.

(* ===================================================================== *)
(** * Facts about the signature text *)
(* ===================================================================== *)

Module SignatureFacts.

Lemma digest_length (m : pybytes) : length (SHA1.digest m) = 20%nat.
Proof.
  unfold SHA1.digest.
  by destruct (fold_left SHA1.compress _ _) as [[[[h0 h1] h2] h3] h4].
Qed.

Lemma hmac_length (key msg : pybytes) : length (HMAC.sha1 key msg) = 20%nat.
Proof. apply digest_length. Qed.

Lemma char_in_alphabet (i : Z) : In (Base64.char i) Base64.alphabet.
Proof.
  unfold Base64.char.
  destruct (nth_in_or_default (Z.to_nat i) Base64.alphabet 0x41) as [Hin | ->]; [done|].
  vm_compute. tauto.
Qed.

(** Every character of a base64 text is a letter of the alphabet or the
    padding sign. *)
Lemma b64encode_Forall (P : Z -> Prop) :
  (forall c, In c Base64.alphabet -> P c) -> P Base64.pad_char ->
  forall d, Forall P (Base64.b64encode d).
Proof.
  intros Halpha Hpad d.
  assert (Hn : forall n d, (length d <= n)%nat -> Forall P (Base64.b64encode d)).
  { clear d. induction n as [|n IH]; intros d Hlen.
    - destruct d; [constructor | simpl in Hlen; lia].
    - destruct d as [|a [|b [|c rest]]]; simpl.
      + constructor.
      + repeat constructor; auto using char_in_alphabet.
      + repeat constructor; auto using char_in_alphabet.
      + repeat (constructor; [auto using char_in_alphabet|]).
        apply IH. simpl in Hlen. lia. }
  by apply (Hn (length d)).
Qed.

Lemma encodebytes_Forall (P : Z -> Prop) :
  (forall c, In c Base64.alphabet -> P c) -> P Base64.pad_char -> P Base64.newline ->
  forall d, Forall P (Base64.encodebytes d).
Proof.
  intros Halpha Hpad Hnl d. unfold Base64.encodebytes.
  apply Forall_concat, Forall_map, Forall_forall. intros i _. simpl.
  unfold Base64.b2a_base64. apply Forall_app. split.
  - by apply b64encode_Forall.
  - by repeat constructor.
Qed.

(** The output of [base64.encodebytes] is ASCII, so that [decode] applies. *)
Lemma encodebytes_ascii (d : pybytes) :
  Forall (fun x => 0 <= x < 0x80) (Base64.encodebytes d).
Proof.
  apply encodebytes_Forall.
  - intros c Hc. vm_compute in Hc.
    repeat (destruct Hc as [<- | Hc]; [lia|]). done.
  - unfold Base64.pad_char. lia.
  - unfold Base64.newline. lia.
Qed.

Lemma b64encode_no_space (d : pybytes) :
  Forall (fun c => PyStr.is_space c = false) (Base64.b64encode d).
Proof.
  apply b64encode_Forall; [|done].
  intros c Hc. vm_compute in Hc.
  repeat (destruct Hc as [<- | Hc]; [done|]). done.
Qed.

(** An input of at most 57 bytes gives one line. *)
Lemma encodebytes_one_line (d : pybytes) :
  (0 < length d <= Base64.MAXBINSIZE)%nat ->
  Base64.encodebytes d = Base64.b64encode d ++ [Base64.newline].
Proof.
  unfold Base64.encodebytes, Base64.MAXBINSIZE. intros Hlen.
  replace ((length d + 57 - 1) / 57)%nat with 1%nat.
  - simpl. rewrite app_nil_r. unfold Base64.b2a_base64.
    rewrite drop_0. by rewrite firstn_all2 by lia.
  - apply (Nat.div_unique _ _ _ (length d - 1)); lia.
Qed.

Lemma lstrip_no_space (s : pystr) :
  Forall (fun c => PyStr.is_space c = false) s -> PyStr.lstrip s = s.
Proof. intros Hs. destruct Hs as [|c s Hc _]; simpl; [done|]. by rewrite Hc. Qed.

Lemma rstrip_no_space (s : pystr) :
  Forall (fun c => PyStr.is_space c = false) s -> PyStr.rstrip s = s.
Proof.
  intros Hs. unfold PyStr.rstrip.
  rewrite lstrip_no_space; [apply rev_involutive|].
  by apply Forall_rev.
Qed.

(** Stripping a text without whitespace that a newline follows removes the
    newline and nothing else, and only the right end matters. *)
Lemma strip_newline (s : pystr) :
  Forall (fun c => PyStr.is_space c = false) s ->
  PyStr.strip (s ++ [Base64.newline]) = s
  /\ PyStr.rstrip (s ++ [Base64.newline]) = s.
Proof.
  intros Hs.
  assert (Hr : PyStr.rstrip (s ++ [Base64.newline]) = s).
  { unfold PyStr.rstrip. rewrite rev_app_distr. simpl.
    fold (PyStr.rstrip s). by apply rstrip_no_space. }
  split; [|done]. unfold PyStr.strip.
  destruct Hs as [|c s Hc Hs]; [done|].
  simpl. rewrite Hc. exact Hr.
Qed.

(** The signature text: the base64 text of a 20-byte digest, as
    [encodebytes(...).decode().strip()] computes it. *)
Lemma signature_text (digest : pybytes) :
  length digest = 20%nat ->
  PyStr.strip (PyStr.decode (Base64.encodebytes digest))
    = PyStr.rstrip (PyStr.decode (Base64.encodebytes digest))
  /\ PyStr.rstrip (PyStr.decode (Base64.encodebytes digest))
    = PyStr.decode (Base64.b64encode digest).
Proof.
  intros Hlen. unfold PyStr.decode.
  rewrite encodebytes_one_line by (unfold Base64.MAXBINSIZE; lia).
  destruct (strip_newline _ (b64encode_no_space digest)) as [-> ->]. done.
Qed.

End SignatureFacts.

(* ===================================================================== *)
(** * The request that leaves *)
(* ===================================================================== *)

Section Dispatch.

Context `{Imports}.

Lemma header_names_distinct :
  PyStr.lit "ak" <> PyStr.lit "data"
  /\ PyStr.lit "ak" <> PyStr.lit "signature"
  /\ PyStr.lit "data" <> PyStr.lit "signature"
  /\ PyStr.lit "Spas-SecurityToken" <> PyStr.lit "ak"
  /\ PyStr.lit "Spas-SecurityToken" <> PyStr.lit "data"
  /\ PyStr.lit "Spas-SecurityToken" <> PyStr.lit "signature"
  /\ (forall k, In k signing_headers -> k <> PyStr.lit "app").
Proof.
  repeat split; try (intros Heq; vm_compute in Heq; discriminate).
  intros k Hk Heq. subst k. vm_compute in Hk.
  repeat (destruct Hk as [Hk | Hk]; [discriminate|]). done.
Qed.

(** What left the proxy came out of the steps before the dispatch. *)
Lemma rns_run_dispatched (self : NamingGRPCClientProxy) (req : Request)
    (cls : ResponseClass) (w : World) (new : list Event) (res : Outcome Response)
    (q : Request) (t : Z) :
  rns_run self req cls w new res ->
  EvRpcRequest q t ∈ new ->
  t = grpc_timeout (grpc_config (client_config self))
  /\ (exists c, (before_dispatch self req w).1 = Returns (c, q))
  /\ (exists rest, new = EvRpcRequest q t :: rest).
Proof.
  intros Hrun Hin.
  inversion Hrun as [e He | c q' e Hb Hs | c q' r' Hb Hs Hc | c q' r' Hb Hs Hc Hi
                     | c q' r' Hb Hs Hc Hi]; subst.
  - apply (elem_of_logged e) in Hin. discriminate.
  - apply elem_of_cons in Hin as [Hin | Hin].
    + injection Hin as -> ->. eauto.
    + apply (elem_of_logged e) in Hin. discriminate.
  - repeat (apply elem_of_cons in Hin as [Hin | Hin]; try discriminate).
    + injection Hin as -> ->. eauto.
    + by apply elem_of_nil in Hin.
  - repeat (apply elem_of_cons in Hin as [Hin | Hin]; try discriminate).
    + injection Hin as -> ->. eauto.
    + by apply elem_of_nil in Hin.
  - repeat (apply elem_of_cons in Hin as [Hin | Hin]; try discriminate).
    + injection Hin as -> ->. eauto.
    + by apply elem_of_nil in Hin.
Qed.

Lemma before_dispatch_returns (self : NamingGRPCClientProxy) (req : Request)
    (w : World) (c : RpcClient) (q : Request) :
  (before_dispatch self req w).1 = Returns (c, q) ->
  exists h,
    inject_security_info (nacos_server_connector self) (headers req) = Returns h
    /\ (sign self (set_headers h req) w).1 = Returns q
    /\ rpc_client self = Some c.
Proof.
  unfold before_dispatch, bind, lift, get_rpc_client.
  destruct (inject_security_info _ _) as [h|e]; [|done].
  rewrite sign_eq. destruct (sign _ _ _).1 as [q'|e] eqn:Hsign; [|done].
  destruct (rpc_client self) as [c'|]; [|done].
  simpl. intros [= -> ->]. by exists h.
Qed.

(** Without a complete access key, signing leaves the request as it is. *)
Lemma sign_without_access_key (self : NamingGRPCClientProxy) (r : Request) (w : World) :
  has_access_key (credentials (client_config self)) = false ->
  sign self r w = (Returns r, w).
Proof.
  unfold has_access_key, sign, PyStr.truthy_opt.
  destruct (access_key_id _) as [ak|]; [|done].
  destruct (access_key_secret _) as [sk|]; [|by destruct (PyStr.truthy ak)].
  by intros ->.
Qed.

(** With a complete access key, the request that signing returns carries the
    three headers of lines 75-80. *)
Lemma sign_with_access_key (self : NamingGRPCClientProxy) (r q : Request) (w : World)
    (ak sk : pystr) :
  access_key_id (credentials (client_config self)) = Some ak ->
  access_key_secret (credentials (client_config self)) = Some sk ->
  ak <> [] -> sk <> [] ->
  (sign self r w).1 = Returns q ->
  let key := get_group_name (serviceName r) (groupName r) in
  let data :=
    if PyStr.truthy (PyStr.strip key)
    then PyStr.str_of_int (now w) ++ SERVICE_INFO_SPLITER ++ key
    else PyStr.str_of_int (now w) in
  exists secret_bytes data_bytes,
    PyStr.encode sk = Returns secret_bytes
    /\ PyStr.encode data = Returns data_bytes
    /\ headers q !! PyStr.lit "ak" = Some ak
    /\ headers q !! PyStr.lit "data" = Some data
    /\ headers q !! PyStr.lit "signature"
       = Some (PyStr.strip (PyStr.decode
                 (Base64.encodebytes (HMAC.sha1 secret_bytes data_bytes))))
    /\ (forall k, ~ In k signing_headers -> headers q !! k = headers r !! k)
    /\ namespace q = namespace r /\ serviceName q = serviceName r
    /\ groupName q = groupName r /\ body q = body r.
Proof.
  intros Hak Hsk Hak0 Hsk0. unfold sign. rewrite Hak, Hsk.
  destruct ak as [|a ak]; [done|]. destruct sk as [|s sk]; [done|].
  change (PyStr.truthy (a :: ak) && PyStr.truthy (s :: sk)) with true.
  unfold bind, get_current_time_millis, lift. cbv beta iota.
  destruct (PyStr.encode (s :: sk)) as [kb|e]; [|done].
  destruct (PyStr.encode _) as [mb|e] eqn:Hmb; [|done].
  destruct header_names_distinct as (H1 & H2 & H3 & H4 & H5 & H6 & _).
  intros Hq.
  set (data := if PyStr.truthy (PyStr.strip (get_group_name (serviceName r) (groupName r)))
               then _ else _) in *.
  exists kb, mb. split; [done|]. split; [done|].
  assert (Hother : forall k, ~ In k signing_headers ->
            (<[PyStr.lit "ak" := a :: ak]>
               (<[PyStr.lit "data" := data]>
                  (<[PyStr.lit "signature" :=
                       PyStr.strip (PyStr.decode (Base64.encodebytes (HMAC.sha1 kb mb)))]>
                     (∅ : Headers))) ∪ headers r) !! k = headers r !! k).
  { intros k Hk. apply lookup_union_r.
    rewrite !lookup_insert_ne; [apply lookup_empty| | |];
      intros <-; apply Hk; vm_compute; tauto. }
  destruct (security_token _) as [tok|]; [destruct (PyStr.truthy tok)|];
    simpl in Hq; injection Hq as <-; simpl;
    repeat split;
    try (intros k Hk);
    rewrite ?lookup_insert_ne by (first [done | intros <-; apply Hk; vm_compute; tauto]);
    try (apply lookup_union_Some_l);
    rewrite ?lookup_insert_eq, ?lookup_insert_ne by done;
    rewrite ?lookup_insert_eq;
    try done; try (by apply Hother).
Qed.

(** The request of every dispatch of a call came out of the security
    injection and the signing step. *)
Lemma dispatched_request (self : NamingGRPCClientProxy) (req : Request)
    (cls : ResponseClass) (w : World) (q : Request) (t : Z) :
  EvRpcRequest q t ∈ new_events w (request_naming_server self req cls w).2 ->
  exists h c,
    inject_security_info (nacos_server_connector self) (headers req) = Returns h
    /\ (sign self (set_headers h req) w).1 = Returns q
    /\ rpc_client self = Some c
    /\ t = grpc_timeout (grpc_config (client_config self)).
Proof.
  intros Hin.
  destruct (rns_sound self req cls w) as (new & res & Heq & Hrun).
  rewrite Heq in Hin. simpl in Hin. rewrite new_events_add in Hin.
  destruct (rns_run_dispatched _ _ _ _ _ _ _ _ Hrun Hin) as (-> & (c & Hb) & _).
  destruct (before_dispatch_returns _ _ _ _ _ Hb) as (h & Hinj & Hs & Hc).
  by exists h, c.
Qed.

(** C4: when the access key id [ak] and the access key secret [sk] are both
    present and not empty, every request that [request_naming_server]
    dispatches carries in the header "data" the signing string, which is
    [str(now) + "@@" + key] when the service key [key =
    get_group_name(serviceName, groupName)] is not empty after stripping and
    [str(now)] alone otherwise, and in the header "signature" the text
    [base64.encodebytes(HMAC-SHA1(sk, data))] without its trailing
    whitespace, which is the base64 text of the digest. *)
Theorem signed_request_data_and_signature (self : NamingGRPCClientProxy)
    (req : Request) (cls : ResponseClass) (w : World) (ak sk : pystr)
    (q : Request) (t : Z) :
  access_key_id (credentials (client_config self)) = Some ak ->
  access_key_secret (credentials (client_config self)) = Some sk ->
  ak <> [] -> sk <> [] ->
  EvRpcRequest q t ∈ new_events w (request_naming_server self req cls w).2 ->
  exists data secret_bytes data_bytes,
    headers q !! PyStr.lit "data" = Some data
    /\ (PyStr.strip (get_group_name (serviceName req) (groupName req)) <> [] ->
        data = PyStr.str_of_int (now w) ++ PyStr.lit "@@"
               ++ get_group_name (serviceName req) (groupName req))
    /\ (PyStr.strip (get_group_name (serviceName req) (groupName req)) = [] ->
        data = PyStr.str_of_int (now w))
    /\ PyStr.encode sk = Returns secret_bytes
    /\ PyStr.encode data = Returns data_bytes
    /\ headers q !! PyStr.lit "signature"
       = Some (PyStr.rstrip (PyStr.decode
                 (Base64.encodebytes (HMAC.sha1 secret_bytes data_bytes))))
    /\ PyStr.rstrip (PyStr.decode (Base64.encodebytes (HMAC.sha1 secret_bytes data_bytes)))
       = PyStr.decode (Base64.b64encode (HMAC.sha1 secret_bytes data_bytes)).
Proof.
  intros Hak Hsk Hak0 Hsk0 Hin.
  destruct (dispatched_request _ _ _ _ _ _ Hin) as (h & c & _ & Hs & _ & _).
  destruct (sign_with_access_key _ _ _ _ _ _ Hak Hsk Hak0 Hsk0 Hs)
    as (kb & mb & Hkb & Hmb & _ & Hdata & Hsig & _).
  simpl in Hdata, Hmb.
  destruct (SignatureFacts.signature_text (HMAC.sha1 kb mb)
              (SignatureFacts.hmac_length kb mb)) as [Hstrip Hb64].
  eexists _, kb, mb. split; [exact Hdata|].
  split; [|split; [|split; [done|split; [done|split]]]].
  - intros Hkey. destruct (PyStr.strip _); [done|]. done.
  - by intros ->.
  - by rewrite <- Hstrip.
  - exact Hb64.
Qed.

(** C7: when the access key id or the access key secret is missing or empty,
    every request that [request_naming_server] dispatches is the request it
    was given with exactly the headers that [inject_security_info] returned,
    so no signing header has been added; and when the security injection
    succeeds on a started client, the request is dispatched. *)
Theorem unsigned_request_is_dispatched_as_is (self : NamingGRPCClientProxy)
    (req : Request) (cls : ResponseClass) (w : World) :
  has_access_key (credentials (client_config self)) = false ->
  (forall q t,
     EvRpcRequest q t ∈ new_events w (request_naming_server self req cls w).2 ->
     inject_security_info (nacos_server_connector self) (headers req)
       = Returns (headers q)
     /\ q = set_headers (headers q) req)
  /\ (forall h c,
        inject_security_info (nacos_server_connector self) (headers req) = Returns h ->
        rpc_client self = Some c ->
        exists rest,
          new_events w (request_naming_server self req cls w).2
          = EvRpcRequest (set_headers h req)
              (grpc_timeout (grpc_config (client_config self))) :: rest).
Proof.
  intros Hkey. split.
  - intros q t Hin.
    destruct (dispatched_request _ _ _ _ _ _ Hin) as (h & c & Hinj & Hs & _ & _).
    rewrite sign_without_access_key in Hs by done. simpl in Hs.
    injection Hs as <-. by rewrite Hinj.
  - intros h c Hinj Hc.
    destruct (rns_sound self req cls w) as (new & res & -> & Hrun). simpl.
    rewrite new_events_add.
    assert (Hb : (before_dispatch self req w).1 = Returns (c, set_headers h req)).
    { unfold before_dispatch, bind, lift, get_rpc_client.
      rewrite Hinj, sign_without_access_key, Hc by done. done. }
    inversion Hrun as [e He | c' q' e Hb' Hs' | c' q' r' Hb' Hs' | c' q' r' Hb' Hs'
                       | c' q' r' Hb' Hs']; subst;
      rewrite Hb in *; try discriminate;
      match goal with Heq : Returns _ = Returns _ |- _ => injection Heq as <- <- end;
      eauto.
Qed.

(** Signing touches the four signing headers and nothing else. *)
Lemma sign_frame (self : NamingGRPCClientProxy) (r q : Request) (w : World) :
  (sign self r w).1 = Returns q ->
  (forall k, ~ In k signing_headers -> headers q !! k = headers r !! k)
  /\ namespace q = namespace r /\ serviceName q = serviceName r
  /\ groupName q = groupName r /\ body q = body r.
Proof.
  intros Hq.
  destruct (has_access_key (credentials (client_config self))) eqn:Hkey.
  - unfold has_access_key, PyStr.truthy_opt in Hkey.
    destruct (access_key_id _) as [ak|] eqn:Hak; [|done].
    destruct (access_key_secret _) as [sk|] eqn:Hsk;
      [|by rewrite andb_false_r in Hkey].
    apply andb_true_iff in Hkey as [Hak0 Hsk0].
    assert (Hak1 : ak <> []) by (by intros ->).
    assert (Hsk1 : sk <> []) by (by intros ->).
    pose proof (sign_with_access_key self r q w ak sk Hak Hsk Hak1 Hsk1 Hq) as Hs.
    cbv zeta in Hs. by destruct Hs as (kb & mb & _ & _ & _ & _ & _ & Hf).
  - rewrite sign_without_access_key in Hq by done. by injection Hq as <-.
Qed.

End Dispatch.

(* ===================================================================== *)
(** * The runs of the public operations *)
(* ===================================================================== *)

Section Operations.

Context `{Imports}.

(** The events between two worlds, when the second one extends the first. *)
Lemma new_events_app (w w' : World) (l : list Event) :
  events w' = events w ++ l -> new_events w w' = l.
Proof. intros Heq. unfold new_events. rewrite Heq. apply drop_app_length. Qed.

Lemma new_events_add_after (w w1 : World) (l0 l : list Event) :
  events w1 = events w ++ l0 -> new_events w (add_events l w1) = l0 ++ l.
Proof. intros Hev. apply new_events_app. simpl. rewrite Hev. by rewrite <- app_assoc. Qed.

Lemma new_events_with_redo_registrations (t : gmap pystr RedoData) (l : list Event)
    (w : World) :
  new_events w (with_redo_registrations t (add_events l w)) = l.
Proof. by apply new_events_app. Qed.

(** [register_instance]: the log line, the redo entry, then a run of
    [request_naming_server] in the world that already holds the entry. *)
Lemma register_instance_run (self : NamingGRPCClientProxy) (s g : pystr)
    (i : Instance) (w : World) :
  exists text args new res w1,
    events w1 = events w ++ [EvLog INFO text args; EvCacheInstanceForRedo s g i]
    /\ redo_registrations w1 = <[get_group_name s g := RedoInstance i]> (redo_registrations w)
    /\ rns_run self
         (InstanceRequest (proxy_namespace_id self) s g i REGISTER_INSTANCE)
         InstanceResponse w1 new res
    /\ register_instance self s g i w
       = (match res with Returns r => Returns (success r) | Raises e => Raises e end,
          add_events new w1).
Proof.
  unfold register_instance, cache_instance_for_redo, logger_info, set_redo_registrations,
    bind, emit.
  match goal with
  | |- context [request_naming_server self ?req InstanceResponse ?w1] =>
      destruct (rns_sound self req InstanceResponse w1) as (new & res & Heq & Hrun);
      rewrite Heq; eexists _, _, new, res, w1
  end.
  split; [|split; [done|split; [exact Hrun|by destruct res]]].
  simpl. by rewrite <- app_assoc.
Qed.

(** [deregister_instance]: the log line, a run of [request_naming_server],
    and the removal of the redo entry when that run has returned. *)
Lemma deregister_instance_run (self : NamingGRPCClientProxy) (s g : pystr)
    (i : Instance) (w : World) :
  exists text args new res,
    let l := EvLog INFO text args in
    rns_run self
      (InstanceRequest (proxy_namespace_id self) s g i DE_REGISTER_INSTANCE)
      InstanceResponse (add_events [l] w) new res
    /\ deregister_instance self s g i w
       = match res with
         | Returns r =>
             (Returns (success r),
              with_redo_registrations
                (delete (get_group_name s g) (redo_registrations w))
                (add_events (l :: new ++ [EvRemoveInstanceForRedo s g]) w))
         | Raises e => (Raises e, add_events (l :: new) w)
         end.
Proof.
  unfold deregister_instance, remove_instance_for_redo, logger_info,
    set_redo_registrations, bind, emit.
  match goal with
  | |- context [request_naming_server self ?req InstanceResponse ?w1] =>
      destruct (rns_sound self req InstanceResponse w1) as (new & res & Heq & Hrun);
      rewrite Heq; eexists _, _, new, res
  end.
  split; [exact Hrun|].
  destruct res; rewrite !add_events_app; simpl; done.
Qed.

Ltac not_that_event :=
  first [ intros (? & ? & ?); discriminate
        | intros (? & ?); discriminate
        | intros ?; discriminate ].

(** In a run of [request_naming_server] an answer comes after a dispatch. *)
Lemma rns_run_request_before_response (self : NamingGRPCClientProxy) (req : Request)
    (cls : ResponseClass) (w : World) (new : list Event) (res : Outcome Response) :
  rns_run self req cls w new res ->
  happens_before is_rpc_request is_rpc_response new.
Proof.
  intros Hrun.
  inversion Hrun as [e He | c q e Hb Hs | c q r' Hb Hs Hc | c q r' Hb Hs Hc Hi
                     | c q r' Hb Hs Hc Hi]; subst.
  - apply happens_before_none. intros ev Hin. apply elem_of_logged in Hin as ->.
    not_that_event.
  - apply happens_before_cons_other; [not_that_event|].
    apply happens_before_none. intros ev Hin. apply elem_of_logged in Hin as ->.
    not_that_event.
  - apply happens_before_cons_first; [by eexists _, _ | not_that_event].
  - apply happens_before_cons_first; [by eexists _, _ | not_that_event].
  - apply happens_before_cons_first; [by eexists _, _ | not_that_event].
Qed.

Lemma rns_run_no_removal (self : NamingGRPCClientProxy) (req : Request)
    (cls : ResponseClass) (w : World) (new : list Event) (res : Outcome Response) :
  rns_run self req cls w new res -> forall e, e ∈ new -> ~ is_redo_removal e.
Proof.
  intros Hrun e Hin (s & g & ->).
  exact (rns_run_events _ _ _ _ _ _ Hrun _ Hin).
Qed.

(** C1: in every call of [register_instance] the redo entry of the instance
    is recorded, and recorded before any request is dispatched, so that the
    entry is in the redo table when the call ends, whatever its outcome; in
    every call of [deregister_instance] the removal of the redo entry, when
    it happens, comes after the answer of the RPC, which comes after its
    dispatch. *)
Theorem redo_record_before_rpc_and_removal_after (self : NamingGRPCClientProxy)
    (s g : pystr) (i : Instance) (w : World) :
  (EvCacheInstanceForRedo s g i ∈ new_events w (register_instance self s g i w).2
   /\ happens_before (eq (EvCacheInstanceForRedo s g i)) is_rpc_request
        (new_events w (register_instance self s g i w).2)
   /\ redo_registrations (register_instance self s g i w).2 !! get_group_name s g
      = Some (RedoInstance i))
  /\ (happens_before is_rpc_response is_redo_removal
        (new_events w (deregister_instance self s g i w).2)
      /\ happens_before is_rpc_request is_rpc_response
           (new_events w (deregister_instance self s g i w).2)).
Proof.
  split.
  - destruct (register_instance_run self s g i w)
      as (text & args & new & res & w1 & Hev & Hredo & Hrun & ->).
    simpl.
    rewrite (new_events_app w _ ([EvLog INFO text args; EvCacheInstanceForRedo s g i] ++ new))
      by (simpl; rewrite Hev; by rewrite <- app_assoc).
    split; [|split].
    + apply list_elem_of_further, list_elem_of_here.
    + apply happens_before_cons_other; [not_that_event|].
      apply happens_before_cons_first; [done | not_that_event].
    + rewrite Hredo. apply lookup_insert_eq.
  - destruct (deregister_instance_run self s g i w)
      as (text & args & new & res & Hrun & ->).
    destruct res as [r|e]; simpl.
    + destruct (rns_run_returns _ _ _ _ _ _ Hrun) as (_ & _ & q & ->).
      rewrite new_events_with_redo_registrations.
      split.
      * apply happens_before_cons_other; [not_that_event|].
        apply happens_before_cons_other; [not_that_event|].
        apply happens_before_cons_first; [by eexists | not_that_event].
      * apply happens_before_cons_other; [not_that_event|].
        apply happens_before_cons_first; [by eexists _, _ | not_that_event].
    + rewrite new_events_add. split.
      * apply happens_before_none. intros ev Hin.
        apply elem_of_cons in Hin as [-> | Hin]; [not_that_event|].
        by eapply rns_run_no_removal.
      * apply happens_before_cons_other; [not_that_event|].
        by eapply rns_run_request_before_response.
Qed.

(** C8: when a call of [deregister_instance] raises, which only its RPC can
    make it do, the removal of the redo entry has not been executed: the
    redo table is the one the call started with and the trace of the call
    holds no removal. *)
Theorem failed_deregister_keeps_redo_entry (self : NamingGRPCClientProxy)
    (s g : pystr) (i : Instance) (w : World) (e : PyExn) :
  (deregister_instance self s g i w).1 = Raises e ->
  redo_registrations (deregister_instance self s g i w).2 = redo_registrations w
  /\ redo_registrations (deregister_instance self s g i w).2 !! get_group_name s g
     = redo_registrations w !! get_group_name s g
  /\ (forall ev, ev ∈ new_events w (deregister_instance self s g i w).2 ->
        ~ is_redo_removal ev).
Proof.
  destruct (deregister_instance_run self s g i w)
    as (text & args & new & res & Hrun & ->).
  destruct res as [r|e']; simpl; [done|]. intros _.
  rewrite new_events_add. repeat split.
  intros ev Hin. apply elem_of_cons in Hin as [-> | Hin]; [not_that_event|].
  by eapply rns_run_no_removal.
Qed.

(** C9: when the RPC of a call of [deregister_instance] is answered by [r]
    with result code 200 and a class that passes the check, the redo entry
    of the service key is removed and the call returns [r.is_success()],
    be it true or false. *)
Theorem deregister_removes_redo_entry_on_200 (self : NamingGRPCClientProxy)
    (s g : pystr) (i : Instance) (w : World) (r : Response) :
  EvRpcResponse r ∈ new_events w (deregister_instance self s g i w).2 ->
  resultCode r = 200 ->
  issubclass (class_of r) InstanceResponse = true ->
  (deregister_instance self s g i w).1 = Returns (success r)
  /\ redo_registrations (deregister_instance self s g i w).2
     = delete (get_group_name s g) (redo_registrations w)
  /\ redo_registrations (deregister_instance self s g i w).2 !! get_group_name s g = None
  /\ EvRemoveInstanceForRedo s g ∈ new_events w (deregister_instance self s g i w).2.
Proof.
  destruct (deregister_instance_run self s g i w)
    as (text & args & new & res & Hrun & ->).
  intros Hin Hcode Hsub.
  assert (Hnew : EvRpcResponse r ∈ new).
  { destruct res; simpl in Hin.
    - rewrite new_events_with_redo_registrations in Hin.
      apply elem_of_cons in Hin as [Hin | Hin]; [discriminate|].
      apply elem_of_app in Hin as [Hin | Hin]; [done|].
      apply list_elem_of_singleton in Hin. discriminate.
    - rewrite new_events_add in Hin.
      apply elem_of_cons in Hin as [Hin | Hin]; [discriminate | done]. }
  destruct (rns_run_response _ _ _ _ _ _ _ Hrun Hnew)
    as [[Hne _] | [(_ & Hsub' & _) | (_ & _ & -> & _)]];
    [contradiction | congruence |].
  simpl. rewrite new_events_with_redo_registrations.
  repeat split.
  - apply lookup_delete_eq.
  - apply list_elem_of_further, elem_of_app. right. apply list_elem_of_here.
Qed.

(** [subscribe]: the log line, the redo entry, a run of
    [request_naming_server] on the request that carries the "app" header,
    and an error log when the answer is not a success. *)
Lemma subscribe_run (self : NamingGRPCClientProxy) (s g c : pystr) (w : World) :
  exists text args new res w1,
    events w1 = events w ++ [EvLog INFO text args;
                             EvCacheSubscribeForRedo (get_group_name s g) c]
    /\ rns_run self
         (put_header (PyStr.lit "app") (app_name (client_config self))
            (SubscribeServiceRequest (proxy_namespace_id self) g s c true))
         SubscribeServiceResponse w1 new res
    /\ subscribe self s g c w
       = match res with
         | Returns r =>
             if success r then (Returns (serviceInfo r), add_events new w1)
             else
               (Returns None,
                add_events
                  (new ++ [EvLog ERROR
                     (PyStr.lit "failed to subscribe service_name:%s, group_name:%s, clusters:%s, namespace:%s, response:%s")
                     [LogStr s; LogStr g; LogStr c; LogStr (proxy_namespace_id self);
                      LogResponse r]])
                  w1)
         | Raises e => (Raises e, add_events new w1)
         end.
Proof.
  unfold subscribe, cache_subscribe_for_redo, logger_info, logger_error,
    set_redo_subscriptions, bind, emit.
  match goal with
  | |- context [request_naming_server self ?req SubscribeServiceResponse ?w1] =>
      destruct (rns_sound self req SubscribeServiceResponse w1) as (new & res & Heq & Hrun);
      rewrite Heq; eexists _, _, new, res, w1
  end.
  split; [|split; [exact Hrun|]].
  - simpl. by rewrite <- app_assoc.
  - destruct res as [r|e]; [|done].
    destruct (success r); simpl; [done|]. by rewrite add_events_app.
Qed.

(** [unsubscribe]: the log line, the removal of the redo entry, then a run
    of [request_naming_server] on a request built without any header. *)
Lemma unsubscribe_run (self : NamingGRPCClientProxy) (s g c : pystr) (w : World) :
  exists text args new res w1,
    events w1 = events w ++ [EvLog INFO text args;
                             EvRemoveSubscriberForRedo (get_group_name s g) c]
    /\ rns_run self
         (SubscribeServiceRequest (proxy_namespace_id self) g s c false)
         SubscribeServiceResponse w1 new res
    /\ unsubscribe self s g c w
       = (match res with Returns _ => Returns tt | Raises e => Raises e end,
          add_events new w1).
Proof.
  unfold unsubscribe, remove_subscriber_for_redo, logger_info,
    set_redo_subscriptions, bind, emit.
  match goal with
  | |- context [request_naming_server self ?req SubscribeServiceResponse ?w1] =>
      destruct (rns_sound self req SubscribeServiceResponse w1) as (new & res & Heq & Hrun);
      rewrite Heq; eexists _, _, new, res, w1
  end.
  split; [|split; [exact Hrun|by destruct res]].
  simpl. by rewrite <- app_assoc.
Qed.

(** C6: when the RPC of a call of [subscribe] is answered by [r] with result
    code 200 and a class that passes the check, the call does not raise: if
    [r.is_success()] is false it returns [None] and the last thing it does
    is to log an error that shows [r]; if it is true it returns
    [r.serviceInfo]. *)
Theorem subscribe_failure_returns_none (self : NamingGRPCClientProxy)
    (s g c : pystr) (w : World) (r : Response) :
  EvRpcResponse r ∈ new_events w (subscribe self s g c w).2 ->
  resultCode r = 200 ->
  issubclass (class_of r) SubscribeServiceResponse = true ->
  (success r = false ->
   (subscribe self s g c w).1 = Returns None
   /\ exists l,
        new_events w (subscribe self s g c w).2
        = l ++ [EvLog ERROR
                  (PyStr.lit "failed to subscribe service_name:%s, group_name:%s, clusters:%s, namespace:%s, response:%s")
                  [LogStr s; LogStr g; LogStr c; LogStr (proxy_namespace_id self);
                   LogResponse r]])
  /\ (success r = true -> (subscribe self s g c w).1 = Returns (serviceInfo r)).
Proof.
  destruct (subscribe_run self s g c w)
    as (text & args & new & res & w1 & Hev & Hrun & ->).
  intros Hin Hcode Hsub.
  assert (Hnew : EvRpcResponse r ∈ new).
  { destruct res as [r0|e]; [destruct (success r0)|]; simpl in Hin;
      rewrite (new_events_add_after _ _ _ _ Hev) in Hin;
      repeat (apply elem_of_cons in Hin as [Hin | Hin]; [discriminate|]);
      try done.
    apply elem_of_app in Hin as [Hin | Hin]; [done|].
    apply list_elem_of_singleton in Hin. discriminate. }
  destruct (rns_run_response _ _ _ _ _ _ _ Hrun Hnew)
    as [[Hne _] | [(_ & Hsub' & _) | (_ & _ & -> & _)]];
    [contradiction | congruence |].
  split; intros Hs; rewrite Hs; simpl; [|done].
  split; [done|].
  rewrite (new_events_add_after _ _ _ _ Hev). rewrite app_assoc. by eexists.
Qed.

(** The request of a dispatch made by a run, traced back to the request
    the run was given: the security injection was called on its headers, and
    signing changed nothing but the signing headers. *)
Lemma rns_run_request_frame (self : NamingGRPCClientProxy) (req : Request)
    (cls : ResponseClass) (w : World) (new : list Event) (res : Outcome Response)
    (q : Request) (t : Z) :
  rns_run self req cls w new res ->
  EvRpcRequest q t ∈ new ->
  (exists h,
     inject_security_info (nacos_server_connector self) (headers req) = Returns h
     /\ headers q !! PyStr.lit "app" = h !! PyStr.lit "app")
  /\ namespace q = namespace req /\ serviceName q = serviceName req
  /\ groupName q = groupName req /\ body q = body req.
Proof.
  intros Hrun Hin.
  destruct (rns_run_dispatched _ _ _ _ _ _ _ _ Hrun Hin) as (_ & (c & Hb) & _).
  destruct (before_dispatch_returns _ _ _ _ _ Hb) as (h & Hinj & Hs & _).
  destruct (sign_frame _ _ _ _ Hs) as (Hh & Hn & Hsn & Hg & Hbody).
  simpl in *. repeat split; try done.
  exists h. split; [done|]. apply Hh.
  intros Hk. by apply header_names_distinct in Hk.
Qed.

Lemma subscribe_dispatch (self : NamingGRPCClientProxy) (s g c : pystr) (w : World)
    (q : Request) (t : Z) :
  EvRpcRequest q t ∈ new_events w (subscribe self s g c w).2 ->
  (exists h,
     inject_security_info (nacos_server_connector self)
       (<[PyStr.lit "app" := app_name (client_config self)]> ∅) = Returns h
     /\ headers q !! PyStr.lit "app" = h !! PyStr.lit "app")
  /\ namespace q = proxy_namespace_id self /\ serviceName q = s
  /\ groupName q = g /\ body q = SubscribeServiceRequestBody c true.
Proof.
  intros Hin.
  destruct (subscribe_run self s g c w)
    as (text & args & new & res & w1 & Hev & Hrun & Heq).
  rewrite Heq in Hin.
  assert (Hnew : EvRpcRequest q t ∈ new).
  { destruct res as [r0|e]; [destruct (success r0)|]; simpl in Hin;
      rewrite (new_events_add_after _ _ _ _ Hev) in Hin;
      repeat (apply elem_of_cons in Hin as [Hin | Hin]; [discriminate|]);
      try done.
    apply elem_of_app in Hin as [Hin | Hin]; [done|].
    apply list_elem_of_singleton in Hin. discriminate. }
  exact (rns_run_request_frame _ _ _ _ _ _ _ _ Hrun Hnew).
Qed.

Lemma unsubscribe_dispatch (self : NamingGRPCClientProxy) (s g c : pystr) (w : World)
    (q : Request) (t : Z) :
  EvRpcRequest q t ∈ new_events w (unsubscribe self s g c w).2 ->
  (exists h,
     inject_security_info (nacos_server_connector self) ∅ = Returns h
     /\ headers q !! PyStr.lit "app" = h !! PyStr.lit "app")
  /\ namespace q = proxy_namespace_id self /\ serviceName q = s
  /\ groupName q = g /\ body q = SubscribeServiceRequestBody c false.
Proof.
  intros Hin.
  destruct (unsubscribe_run self s g c w)
    as (text & args & new & res & w1 & Hev & Hrun & Heq).
  rewrite Heq in Hin. simpl in Hin.
  rewrite (new_events_add_after _ _ _ _ Hev) in Hin.
  repeat (apply elem_of_cons in Hin as [Hin | Hin]; [discriminate|]).
  exact (rns_run_request_frame _ _ _ _ _ _ _ _ Hrun Hin).
Qed.

(** C10: [subscribe] puts the header "app", with the application name of
    the client configuration, on its request before it hands it on, and
    [unsubscribe] hands on a request without any header: the security
    injection is called on exactly these headers, and the header "app" of
    every request dispatched is the one the injection returned.  So, when
    the injection leaves the header "app" alone, every request that
    [subscribe] dispatches carries "app" with the application name and every
    request that [unsubscribe] dispatches carries none.  Both are subscribe
    service requests with the same namespace, service, group and clusters;
    the flag [subscribe] is true in the first and false in the second. *)
Theorem subscribe_sends_app_header_unsubscribe_does_not
    (self : NamingGRPCClientProxy) (s g c : pystr) (w : World) :
  (forall q t,
     EvRpcRequest q t ∈ new_events w (subscribe self s g c w).2 ->
     (exists h,
        inject_security_info (nacos_server_connector self)
          (<[PyStr.lit "app" := app_name (client_config self)]> ∅) = Returns h
        /\ headers q !! PyStr.lit "app" = h !! PyStr.lit "app")
     /\ namespace q = proxy_namespace_id self /\ serviceName q = s
     /\ groupName q = g /\ body q = SubscribeServiceRequestBody c true)
  /\ (forall q t,
        EvRpcRequest q t ∈ new_events w (unsubscribe self s g c w).2 ->
        (exists h,
           inject_security_info (nacos_server_connector self) ∅ = Returns h
           /\ headers q !! PyStr.lit "app" = h !! PyStr.lit "app")
        /\ namespace q = proxy_namespace_id self /\ serviceName q = s
        /\ groupName q = g /\ body q = SubscribeServiceRequestBody c false)
  /\ ((forall h h',
         inject_security_info (nacos_server_connector self) h = Returns h' ->
         h' !! PyStr.lit "app" = h !! PyStr.lit "app") ->
      (forall q t,
         EvRpcRequest q t ∈ new_events w (subscribe self s g c w).2 ->
         headers q !! PyStr.lit "app" = Some (app_name (client_config self)))
      /\ (forall q t,
            EvRpcRequest q t ∈ new_events w (unsubscribe self s g c w).2 ->
            headers q !! PyStr.lit "app" = None)).
Proof.
  split; [intros q t; apply subscribe_dispatch|].
  split; [intros q t; apply unsubscribe_dispatch|].
  intros Hframe. split; intros q t Hin.
  - destruct (subscribe_dispatch _ _ _ _ _ _ _ Hin) as ((h & Hinj & ->) & _).
    rewrite (Hframe _ _ Hinj). apply lookup_insert_eq.
  - destruct (unsubscribe_dispatch _ _ _ _ _ _ _ Hin) as ((h & Hinj & ->) & _).
    rewrite (Hframe _ _ Hinj). apply lookup_empty.
Qed.

End Operations.

(* ===================================================================== *)
(** * The theorems at sample inputs *)
(* ===================================================================== *)

Ltac in_trace := vm_compute; repeat constructor.

(** C2, as first stated, fails: a response with result code 500, error code
    403 and message "overflow" makes [request_naming_server] raise
    [NacosException(403, "overflow")], not [NacosException(500, "overflow")]. *)
Lemma result_code_500_counterexample :
  let self := Sample.proxy Sample.no_credentials (Returns Sample.rejection) in
  let run :=
    @request_naming_server Sample.imports self Sample.register_request InstanceResponse
      Sample.world in
  EvRpcResponse Sample.rejection ∈ new_events Sample.world run.2
  /\ resultCode Sample.rejection = 500
  /\ message Sample.rejection = PyStr.lit "overflow"
  /\ run.1 = Raises (NacosException 403 (PyStr.lit "overflow"))
  /\ run.1 <> Raises (NacosException 500 (PyStr.lit "overflow")).
Proof.
  cbv zeta. split; [in_trace|]. split; [reflexivity|]. split; [reflexivity|].
  split; [vm_compute; reflexivity|].
  vm_compute. intros Heq. discriminate.
Qed.

(** C3, as first stated, fails: an exception that is not a [NacosException]
    but derives from [BaseException] only, here the [CancelledError] that
    the awaited transport call raises when the task is cancelled, is caught
    by neither [except] clause.  It reaches the caller as it is, not as a
    [NacosException], and nothing is logged. *)
Lemma cancelled_transport_counterexample :
  let fault := PyBaseException (PyStr.lit "CancelledError") [] in
  let self := Sample.proxy Sample.no_credentials (Raises fault) in
  let run :=
    @request_naming_server Sample.imports self Sample.register_request InstanceResponse
      Sample.world in
  @fault_raised Sample.imports self Sample.register_request Sample.world fault
  /\ is_nacos_exception fault = false
  /\ run.1 = Raises fault
  /\ (forall code msg, run.1 <> Raises (NacosException code msg))
  /\ new_events Sample.world run.2 = [EvRpcRequest Sample.register_request 3000].
Proof.
  cbv zeta. split; [|split; [reflexivity|split; [|split]]].
  - right. eexists _, _. split; vm_compute; reflexivity.
  - vm_compute. reflexivity.
  - intros code msg. vm_compute. intros Heq. discriminate.
  - vm_compute. reflexivity.
Qed.

Lemma non_200_raises_with_error_code_witness :
  let self := Sample.proxy Sample.no_credentials (Returns Sample.rejection) in
  let run :=
    @request_naming_server Sample.imports self Sample.register_request InstanceResponse
      Sample.world in
  (EvRpcResponse Sample.rejection ∈ new_events Sample.world run.2
   /\ resultCode Sample.rejection <> 200)
  /\ run.1 = Raises (NacosException (errorCode Sample.rejection) (message Sample.rejection))
  /\ (resultCode Sample.rejection = 500 ->
      message Sample.rejection = PyStr.lit "overflow" ->
      run.1 = Raises (NacosException (errorCode Sample.rejection) (PyStr.lit "overflow"))).
Proof.
  cbv zeta.
  assert (Hin : EvRpcResponse Sample.rejection
                  ∈ new_events Sample.world
                      (@request_naming_server Sample.imports
                         (Sample.proxy Sample.no_credentials (Returns Sample.rejection))
                         Sample.register_request InstanceResponse Sample.world).2)
    by in_trace.
  assert (Hcode : resultCode Sample.rejection <> 200) by (vm_compute; discriminate).
  split; [split; assumption|].
  exact (non_200_raises_with_error_code _ _ _ _ _ Hin Hcode).
Defined.

Lemma result_200_checks_response_class_witness :
  let answer := Sample.response ServiceListResponse 200 0 "" true in
  let self := Sample.proxy Sample.no_credentials (Returns answer) in
  let run :=
    @request_naming_server Sample.imports self Sample.register_request InstanceResponse
      Sample.world in
  (EvRpcResponse answer ∈ new_events Sample.world run.2 /\ resultCode answer = 200)
  /\ (@issubclass Sample.imports (class_of answer) InstanceResponse = false ->
      run.1 = Raises (NacosException 500 (PyStr.lit " Server return invalid response")))
  /\ (@issubclass Sample.imports (class_of answer) InstanceResponse = true ->
      run.1 = Returns answer).
Proof.
  cbv zeta.
  assert (Hin : EvRpcResponse (Sample.response ServiceListResponse 200 0 "" true)
                  ∈ new_events Sample.world
                      (@request_naming_server Sample.imports
                         (Sample.proxy Sample.no_credentials
                            (Returns (Sample.response ServiceListResponse 200 0 "" true)))
                         Sample.register_request InstanceResponse Sample.world).2)
    by in_trace.
  split; [split; [assumption | reflexivity]|].
  exact (result_200_checks_response_class _ _ _ _ _ Hin eq_refl).
Defined.

Lemma transport_fault_is_wrapped_witness :
  let fault := PyException (PyStr.lit "ConnectionError") (PyStr.lit "connection reset") in
  let self := Sample.proxy Sample.no_credentials (Raises fault) in
  let run :=
    @request_naming_server Sample.imports self Sample.register_request InstanceResponse
      Sample.world in
  @fault_raised Sample.imports self Sample.register_request Sample.world fault
  /\ run.1 = Raises (NacosException 500
                       (PyStr.lit "Request nacos naming server failed: connection reset"))
  /\ error_log fault ∈ new_events Sample.world run.2.
Proof.
  cbv zeta.
  assert (Hfault : @fault_raised Sample.imports
                     (Sample.proxy Sample.no_credentials
                        (Raises (PyException (PyStr.lit "ConnectionError")
                                   (PyStr.lit "connection reset"))))
                     Sample.register_request Sample.world
                     (PyException (PyStr.lit "ConnectionError")
                        (PyStr.lit "connection reset"))).
  { right. eexists _, _. split; vm_compute; reflexivity. }
  split; [assumption|].
  destruct (transport_fault_is_wrapped _ _ InstanceResponse _ _ _ Hfault)
    as (Hres & Hlog & _).
  split; [exact Hres | exact Hlog].
Defined.

Lemma signed_request_data_and_signature_witness :
  let self :=
    Sample.proxy Sample.signed_credentials
      (Returns (Sample.response InstanceResponse 200 0 "" true)) in
  let run :=
    @request_naming_server Sample.imports self Sample.register_request InstanceResponse
      Sample.world in
  (access_key_id (credentials (client_config self)) = Some (PyStr.lit "AK")
   /\ access_key_secret (credentials (client_config self)) = Some (PyStr.lit "secret")
   /\ PyStr.lit "AK" <> [] /\ PyStr.lit "secret" <> []
   /\ EvRpcRequest Sample.signed_register_request 3000 ∈ new_events Sample.world run.2)
  /\ headers Sample.signed_register_request !! PyStr.lit "data"
     = Some (PyStr.lit "1700000000000@@DEFAULT_GROUP@@svc-a")
  /\ headers Sample.signed_register_request !! PyStr.lit "signature"
     = Some (PyStr.lit "Fn8oIOJxgmkLrSfTwjO5UWl9avI=")
  /\ exists data secret_bytes data_bytes,
       headers Sample.signed_register_request !! PyStr.lit "data" = Some data
       /\ PyStr.encode (PyStr.lit "secret") = Returns secret_bytes
       /\ PyStr.encode data = Returns data_bytes
       /\ headers Sample.signed_register_request !! PyStr.lit "signature"
          = Some (PyStr.decode (Base64.b64encode (HMAC.sha1 secret_bytes data_bytes))).
Proof.
  cbv zeta.
  assert (Hin : EvRpcRequest Sample.signed_register_request 3000
                  ∈ new_events Sample.world
                      (@request_naming_server Sample.imports
                         (Sample.proxy Sample.signed_credentials
                            (Returns (Sample.response InstanceResponse 200 0 "" true)))
                         Sample.register_request InstanceResponse Sample.world).2)
    by in_trace.
  assert (Hak : PyStr.lit "AK" <> []) by (vm_compute; discriminate).
  assert (Hsk : PyStr.lit "secret" <> []) by (vm_compute; discriminate).
  split; [repeat split; assumption|].
  split; [vm_compute; reflexivity|]. split; [vm_compute; reflexivity|].
  destruct (@signed_request_data_and_signature Sample.imports
              (Sample.proxy Sample.signed_credentials
                 (Returns (Sample.response InstanceResponse 200 0 "" true)))
              Sample.register_request InstanceResponse Sample.world
              (PyStr.lit "AK") (PyStr.lit "secret") Sample.signed_register_request 3000
              eq_refl eq_refl Hak Hsk Hin)
    as (data & kb & mb & Hdata & _ & _ & Hkb & Hmb & Hsig & Hb64).
  exists data, kb, mb. rewrite <- Hb64. repeat split; assumption.
Defined.

Lemma unsigned_request_is_dispatched_as_is_witness :
  let self :=
    Sample.proxy Sample.no_credentials
      (Returns (Sample.response InstanceResponse 200 0 "" true)) in
  let run :=
    @request_naming_server Sample.imports self Sample.register_request InstanceResponse
      Sample.world in
  has_access_key (credentials (client_config self)) = false
  /\ exists rest,
       new_events Sample.world run.2 = EvRpcRequest Sample.register_request 3000 :: rest.
Proof.
  cbv zeta. split; [reflexivity|].
  destruct (@unsigned_request_is_dispatched_as_is Sample.imports
              (Sample.proxy Sample.no_credentials
                 (Returns (Sample.response InstanceResponse 200 0 "" true)))
              Sample.register_request InstanceResponse Sample.world eq_refl)
    as [_ Hsent].
  exact (Hsent ∅ _ eq_refl eq_refl).
Defined.

Lemma failed_deregister_keeps_redo_entry_witness :
  let self := Sample.proxy Sample.no_credentials (Returns Sample.rejection) in
  let run :=
    @deregister_instance Sample.imports self Sample.svc Sample.grp Sample.instance
      Sample.registered_world in
  run.1 = Raises (NacosException 403 (PyStr.lit "overflow"))
  /\ redo_registrations run.2 = redo_registrations Sample.registered_world
  /\ redo_registrations run.2 !! Sample.get_group_name Sample.svc Sample.grp
     = Some (RedoInstance Sample.instance).
Proof.
  cbv zeta.
  assert (Hraise : (@deregister_instance Sample.imports
                      (Sample.proxy Sample.no_credentials (Returns Sample.rejection))
                      Sample.svc Sample.grp Sample.instance Sample.registered_world).1
                   = Raises (NacosException 403 (PyStr.lit "overflow")))
    by (vm_compute; reflexivity).
  split; [assumption|].
  destruct (failed_deregister_keeps_redo_entry _ _ _ _ _ _ Hraise) as (Hsame & Hkey & _).
  split; [exact Hsame|]. etransitivity; [exact Hkey | vm_compute; reflexivity].
Defined.

Lemma deregister_removes_redo_entry_on_200_witness :
  let answer := Sample.response InstanceResponse 200 0 "" false in
  let self := Sample.proxy Sample.no_credentials (Returns answer) in
  let run :=
    @deregister_instance Sample.imports self Sample.svc Sample.grp Sample.instance
      Sample.registered_world in
  (EvRpcResponse answer ∈ new_events Sample.registered_world run.2
   /\ resultCode answer = 200
   /\ @issubclass Sample.imports (class_of answer) InstanceResponse = true
   /\ success answer = false)
  /\ run.1 = Returns false
  /\ redo_registrations run.2 !! Sample.get_group_name Sample.svc Sample.grp = None
  /\ redo_registrations Sample.registered_world
       !! Sample.get_group_name Sample.svc Sample.grp
     = Some (RedoInstance Sample.instance).
Proof.
  cbv zeta.
  assert (Hin : EvRpcResponse (Sample.response InstanceResponse 200 0 "" false)
                  ∈ new_events Sample.registered_world
                      (@deregister_instance Sample.imports
                         (Sample.proxy Sample.no_credentials
                            (Returns (Sample.response InstanceResponse 200 0 "" false)))
                         Sample.svc Sample.grp Sample.instance Sample.registered_world).2)
    by in_trace.
  split; [repeat split; try reflexivity; assumption|].
  destruct (deregister_removes_redo_entry_on_200 _ _ _ _ _ _ Hin eq_refl eq_refl)
    as (Hres & _ & Hgone & _).
  split; [exact Hres|]. split; [exact Hgone|]. vm_compute. reflexivity.
Defined.

Lemma subscribe_failure_returns_none_witness :
  let answer := Sample.response SubscribeServiceResponse 200 0 "" false in
  let self := Sample.proxy Sample.no_credentials (Returns answer) in
  let run :=
    @subscribe Sample.imports self Sample.svc Sample.grp [] Sample.world in
  (EvRpcResponse answer ∈ new_events Sample.world run.2
   /\ resultCode answer = 200
   /\ @issubclass Sample.imports (class_of answer) SubscribeServiceResponse = true
   /\ success answer = false)
  /\ run.1 = Returns None
  /\ exists l text args, new_events Sample.world run.2 = l ++ [EvLog ERROR text args].
Proof.
  cbv zeta.
  assert (Hin : EvRpcResponse (Sample.response SubscribeServiceResponse 200 0 "" false)
                  ∈ new_events Sample.world
                      (@subscribe Sample.imports
                         (Sample.proxy Sample.no_credentials
                            (Returns (Sample.response SubscribeServiceResponse 200 0 "" false)))
                         Sample.svc Sample.grp [] Sample.world).2)
    by in_trace.
  split; [repeat split; try reflexivity; assumption|].
  destruct (subscribe_failure_returns_none _ _ _ _ _ _ Hin eq_refl eq_refl) as [Hfail _].
  destruct (Hfail eq_refl) as (Hres & l & Hlog).
  split; [exact Hres|]. eexists l, _, _. exact Hlog.
Defined.

Lemma subscribe_sends_app_header_unsubscribe_does_not_witness :
  let self :=
    Sample.proxy Sample.no_credentials
      (Returns (Sample.response SubscribeServiceResponse 200 0 "" true)) in
  (forall h h',
     inject_security_info (nacos_server_connector self) h = Returns h' ->
     h' !! PyStr.lit "app" = h !! PyStr.lit "app")
  /\ (exists q t,
        EvRpcRequest q t
          ∈ new_events Sample.world
              (@subscribe Sample.imports self Sample.svc Sample.grp [] Sample.world).2
        /\ headers q !! PyStr.lit "app" = Some (PyStr.lit "demo-app")
        /\ body q = SubscribeServiceRequestBody [] true)
  /\ (exists q t,
        EvRpcRequest q t
          ∈ new_events Sample.world
              (@unsubscribe Sample.imports self Sample.svc Sample.grp [] Sample.world).2
        /\ headers q !! PyStr.lit "app" = None
        /\ body q = SubscribeServiceRequestBody [] false).
Proof.
  cbv zeta.
  assert (Hframe : forall h h' : Headers,
            inject_security_info
              (nacos_server_connector
                 (Sample.proxy Sample.no_credentials
                    (Returns (Sample.response SubscribeServiceResponse 200 0 "" true))))
              h = Returns h' ->
            h' !! PyStr.lit "app" = h !! PyStr.lit "app").
  { intros h h' Heq. simpl in Heq. injection Heq as <-. reflexivity. }
  split; [exact Hframe|].
  destruct (@subscribe_sends_app_header_unsubscribe_does_not Sample.imports
              (Sample.proxy Sample.no_credentials
                 (Returns (Sample.response SubscribeServiceResponse 200 0 "" true)))
              Sample.svc Sample.grp [] Sample.world)
    as (Hsub & Hunsub & Hvalues).
  destruct (Hvalues Hframe) as [Happ Hnone].
  split.
  - eexists _, _.
    assert (Hin : EvRpcRequest
                    (put_header (PyStr.lit "app") (PyStr.lit "demo-app")
                       (SubscribeServiceRequest (PyStr.lit "public") Sample.grp Sample.svc
                          [] true))
                    3000
                  ∈ new_events Sample.world
                      (@subscribe Sample.imports
                         (Sample.proxy Sample.no_credentials
                            (Returns (Sample.response SubscribeServiceResponse 200 0 "" true)))
                         Sample.svc Sample.grp [] Sample.world).2)
      by in_trace.
    split; [exact Hin|]. split; [exact (Happ _ _ Hin)|].
    by destruct (Hsub _ _ Hin) as (_ & _ & _ & _ & Hbody).
  - eexists _, _.
    assert (Hin : EvRpcRequest
                    (SubscribeServiceRequest (PyStr.lit "public") Sample.grp Sample.svc
                       [] false)
                    3000
                  ∈ new_events Sample.world
                      (@unsubscribe Sample.imports
                         (Sample.proxy Sample.no_credentials
                            (Returns (Sample.response SubscribeServiceResponse 200 0 "" true)))
                         Sample.svc Sample.grp [] Sample.world).2)
      by in_trace.
    split; [exact Hin|]. split; [exact (Hnone _ _ Hin)|].
    by destruct (Hunsub _ _ Hin) as (_ & _ & _ & _ & Hbody).
Defined.

(* ===================================================================== *)
(** * More about the runs of [request_naming_server] *)
(* ===================================================================== *)

Section MoreRuns.

Context `{Imports}.

Lemma count_logged (p : Event -> bool) (e : PyExn) :
  count_events p (logged e)
  = if is_base_exception e then 0%nat else if p (error_log e) then 1%nat else 0%nat.
Proof.
  destruct e; unfold count_events; simpl; try done;
    match goal with |- context [p ?x] => by destruct (p x) end.
Qed.

(** X1: a response that [request_naming_server] returns has result code 200
    and a class that passes the [issubclass] check; the call has dispatched
    one request, got that response, and logged nothing. *)
Theorem returned_response_is_accepted (self : NamingGRPCClientProxy) (req : Request)
    (cls : ResponseClass) (w : World) (r : Response) :
  (request_naming_server self req cls w).1 = Returns r ->
  resultCode r = 200
  /\ issubclass (class_of r) cls = true
  /\ exists q,
       new_events w (request_naming_server self req cls w).2
       = [EvRpcRequest q (grpc_timeout (grpc_config (client_config self)));
          EvRpcResponse r].
Proof.
  destruct (rns_sound self req cls w) as (new & res & -> & Hrun). simpl.
  intros ->. rewrite new_events_add. by apply rns_run_returns in Hrun.
Qed.

(** X2: a call of [request_naming_server] dispatches at most one request (it
    never retries), with the timeout of the gRPC configuration, and gets at
    most one answer. *)
Theorem at_most_one_dispatch (self : NamingGRPCClientProxy) (req : Request)
    (cls : ResponseClass) (w : World) :
  (count_events is_dispatch (new_events w (request_naming_server self req cls w).2) <= 1)%nat
  /\ (count_events is_answer (new_events w (request_naming_server self req cls w).2)
      <= count_events is_dispatch (new_events w (request_naming_server self req cls w).2))%nat
  /\ (forall q t,
        EvRpcRequest q t ∈ new_events w (request_naming_server self req cls w).2 ->
        t = grpc_timeout (grpc_config (client_config self))).
Proof.
  destruct (rns_sound self req cls w) as (new & res & -> & Hrun). simpl.
  rewrite new_events_add. split; [|split].
  - inversion Hrun as [e He | c q e Hb Hs | c q r' Hb Hs Hc | c q r' Hb Hs Hc Hi
                       | c q r' Hb Hs Hc Hi]; subst; try (unfold count_events; simpl; lia).
    + rewrite count_logged. destruct (is_base_exception e); simpl; lia.
    + change (count_events is_dispatch (EvRpcRequest q _ :: logged e))
        with (S (count_events is_dispatch (logged e))).
      rewrite count_logged. destruct (is_base_exception e); simpl; lia.
  - inversion Hrun as [e He | c q e Hb Hs | c q r' Hb Hs Hc | c q r' Hb Hs Hc Hi
                       | c q r' Hb Hs Hc Hi]; subst; try (unfold count_events; simpl; lia).
    + rewrite !count_logged. destruct (is_base_exception e); simpl; lia.
    + change (count_events is_dispatch (EvRpcRequest q _ :: logged e))
        with (S (count_events is_dispatch (logged e))).
      change (count_events is_answer (EvRpcRequest q _ :: logged e))
        with (count_events is_answer (logged e)).
      rewrite !count_logged. destruct (is_base_exception e); simpl; lia.
  - intros q t Hin. by destruct (rns_run_dispatched _ _ _ _ _ _ _ _ Hrun Hin) as [-> _].
Qed.

(** X3: a [NacosException] that a collaborator raises inside
    [request_naming_server] reaches the caller as it is, code and message
    unchanged and not wrapped a second time, after one error line. *)
Theorem nacos_exception_is_reraised_unchanged (self : NamingGRPCClientProxy)
    (req : Request) (cls : ResponseClass) (w : World) (code : Z) (msg : pystr) :
  fault_raised self req w (NacosException code msg) ->
  (request_naming_server self req cls w).1 = Raises (NacosException code msg)
  /\ count_events is_error_log (new_events w (request_naming_server self req cls w).2)
     = 1%nat.
Proof.
  intros Hfault.
  destruct (rns_sound self req cls w) as (new & res & -> & Hrun). simpl.
  rewrite new_events_add.
  destruct Hfault as [Hb | (c & q & Hb & Hs)];
    inversion Hrun as [e He | c' q' e Hb' Hs' | c' q' r' Hb' Hs' | c' q' r' Hb' Hs'
                       | c' q' r' Hb' Hs']; subst; try congruence.
  - rewrite Hb in He. by injection He as <-.
  - rewrite Hb in Hb'. injection Hb' as <- <-. rewrite Hs in Hs'.
    by injection Hs' as <-.
Qed.

(** X4: an exception that is no [Exception] (a cancellation, an interpreter
    exit) raised inside [request_naming_server] passes through the two
    [except] clauses: it reaches the caller as it is and no error line is
    logged. *)
Theorem base_exception_passes_unlogged (self : NamingGRPCClientProxy)
    (req : Request) (cls : ResponseClass) (w : World) (kind text : pystr) :
  fault_raised self req w (PyBaseException kind text) ->
  (request_naming_server self req cls w).1 = Raises (PyBaseException kind text)
  /\ count_events is_error_log (new_events w (request_naming_server self req cls w).2)
     = 0%nat.
Proof.
  intros Hfault.
  destruct (rns_sound self req cls w) as (new & res & -> & Hrun). simpl.
  rewrite new_events_add.
  destruct Hfault as [Hb | (c & q & Hb & Hs)];
    inversion Hrun as [e He | c' q' e Hb' Hs' | c' q' r' Hb' Hs' | c' q' r' Hb' Hs'
                       | c' q' r' Hb' Hs']; subst; try congruence.
  - rewrite Hb in He. by injection He as <-.
  - rewrite Hb in Hb'. injection Hb' as <- <-. rewrite Hs in Hs'.
    by injection Hs' as <-.
Qed.

(** X5: a call of [request_naming_server] logs one error line when it raises
    a [NacosException] (its own, a collaborator's or a wrapped fault) and
    none otherwise. *)
Theorem one_error_line_per_failed_request (self : NamingGRPCClientProxy)
    (req : Request) (cls : ResponseClass) (w : World) :
  count_events is_error_log (new_events w (request_naming_server self req cls w).2)
  = match (request_naming_server self req cls w).1 with
    | Raises (NacosException _ _) => 1%nat
    | _ => 0%nat
    end.
Proof.
  destruct (rns_sound self req cls w) as (new & res & -> & Hrun). simpl.
  rewrite new_events_add.
  inversion Hrun as [e He | c q e Hb Hs | c q r' Hb Hs Hc | c q r' Hb Hs Hc Hi
                     | c q r' Hb Hs Hc Hi]; subst; try done.
  - by destruct e.
  - by destruct e.
Qed.

(** X6: [request_naming_server] leaves the redo tables alone, whatever its
    outcome: it only adds events to the trace. *)
Theorem request_naming_server_keeps_redo_tables (self : NamingGRPCClientProxy)
    (req : Request) (cls : ResponseClass) (w : World) :
  redo_registrations (request_naming_server self req cls w).2 = redo_registrations w
  /\ redo_subscriptions (request_naming_server self req cls w).2 = redo_subscriptions w
  /\ events (request_naming_server self req cls w).2
     = events w ++ new_events w (request_naming_server self req cls w).2.
Proof.
  destruct (rns_sound self req cls w) as (new & res & -> & Hrun). simpl.
  by rewrite new_events_add.
Qed.

(** X7: on a proxy whose client is still [None], [request_naming_server]
    dispatches nothing and raises; when the security injection and the
    signing go through, what it raises is the wrapped [AttributeError]. *)
Theorem not_started_raises_and_dispatches_nothing (self : NamingGRPCClientProxy)
    (req : Request) (cls : ResponseClass) (w : World) :
  rpc_client self = None ->
  count_events is_dispatch (new_events w (request_naming_server self req cls w).2) = 0%nat
  /\ (exists e, (request_naming_server self req cls w).1 = Raises e)
  /\ (forall h q,
        inject_security_info (nacos_server_connector self) (headers req) = Returns h ->
        (sign self (set_headers h req) w).1 = Returns q ->
        (request_naming_server self req cls w).1
        = Raises (NacosException SERVER_ERROR
            (PyStr.lit "Request nacos naming server failed: 'NoneType' object has no attribute 'request'"))).
Proof.
  intros Hnone.
  assert (Hb : forall c q, (before_dispatch self req w).1 <> Returns (c, q)).
  { intros c q Hb. apply before_dispatch_returns in Hb as (h & _ & _ & Hc). congruence. }
  destruct (rns_sound self req cls w) as (new & res & -> & Hrun). simpl.
  rewrite new_events_add.
  inversion Hrun as [e He | c q e Hb' Hs | c q r' Hb' Hs Hc | c q r' Hb' Hs Hc Hi
                     | c q r' Hb' Hs Hc Hi]; subst;
    try (by apply Hb in Hb').
  split; [|split].
  - rewrite count_logged. by destruct e.
  - by eexists.
  - intros h q Hinj Hsign. revert He.
    unfold before_dispatch, bind, lift, get_rpc_client.
    rewrite Hinj, sign_eq, Hsign, Hnone. simpl. by intros [= <-].
Qed.

End MoreRuns.

(* ===================================================================== *)
(** * More about signing *)
(* ===================================================================== *)

Module EncodingFacts.






(** The length of a base64 text: four characters for every three bytes
    begun. *)
Lemma b64encode_length (d : pybytes) :
  length (Base64.b64encode d) = (4 * ((length d + 2) / 3))%nat.
Proof.
  assert (Hn : forall n d, (length d <= n)%nat ->
            length (Base64.b64encode d) = (4 * ((length d + 2) / 3))%nat).
  { clear d. induction n as [|n IH]; intros d Hlen.
    - destruct d; [done | simpl in Hlen; lia].
    - destruct d as [|a [|b [|c rest]]]; try done.
      simpl length. rewrite IH by (simpl in Hlen; lia).
      replace (S (S (S (length rest))) + 2)%nat with (length rest + 2 + 1 * 3)%nat by lia.
      rewrite Nat.div_add by lia. lia. }
  by apply (Hn (length d)).
Qed.





End EncodingFacts.

Section MoreSigning.

Context `{Imports}.

(** When the steps before the dispatch raise, the call ends there. *)
Lemma rns_unsent (self : NamingGRPCClientProxy) (req : Request) (cls : ResponseClass)
    (w : World) (e : PyExn) :
  (before_dispatch self req w).1 = Raises e ->
  request_naming_server self req cls w = (Raises (reraised e), add_events (logged e) w).
Proof.
  intros Hb.
  destruct (rns_sound self req cls w) as (new & res & -> & Hrun).
  inversion Hrun as [e' He | c q e' Hb' Hs | c q r' Hb' Hs Hc | c q r' Hb' Hs Hc Hi
                     | c q r' Hb' Hs Hc Hi]; subst; congruence.
Qed.


(** The security token header of a signed request (lines 81-82). *)
Lemma sign_token (self : NamingGRPCClientProxy) (r q : Request) (w : World)
    (ak sk : pystr) :
  access_key_id (credentials (client_config self)) = Some ak ->
  access_key_secret (credentials (client_config self)) = Some sk ->
  ak <> [] -> sk <> [] ->
  (sign self r w).1 = Returns q ->
  headers q !! PyStr.lit "Spas-SecurityToken"
  = match security_token (credentials (client_config self)) with
    | Some (c :: tok) => Some (c :: tok)
    | _ => headers r !! PyStr.lit "Spas-SecurityToken"
    end.
Proof.
  intros Hak Hsk Hak0 Hsk0. unfold sign. rewrite Hak, Hsk.
  destruct ak as [|a ak]; [done|]. destruct sk as [|s sk]; [done|].
  change (PyStr.truthy (a :: ak) && PyStr.truthy (s :: sk)) with true.
  unfold bind, get_current_time_millis, lift. cbv beta iota.
  destruct (PyStr.encode (s :: sk)) as [kb|e]; [|done].
  destruct (PyStr.encode _) as [mb|e] eqn:Hmb; [|done].
  destruct header_names_distinct as (H1 & H2 & H3 & H4 & H5 & H6 & _).
  assert (Hnone : forall (v1 v2 v3 : pystr),
            (<[PyStr.lit "ak" := v1]>
               (<[PyStr.lit "data" := v2]>
                  (<[PyStr.lit "signature" := v3]> (∅ : Headers))) ∪ headers r)
              !! PyStr.lit "Spas-SecurityToken"
            = headers r !! PyStr.lit "Spas-SecurityToken").
  { intros v1 v2 v3. apply lookup_union_r.
    rewrite !lookup_insert_ne by done. apply lookup_empty. }
  destruct (security_token _) as [[|c tok]|]; simpl; intros [= <-]; simpl.
  - apply Hnone.
  - apply lookup_insert_eq.
  - apply Hnone.
Qed.

(** X8: with a complete access key, every request dispatched carries the
    access key id in the header "ak"; it carries the security token in the
    header "Spas-SecurityToken" when the credentials hold a token that is
    not empty, and otherwise that header is as the security injection left
    it. *)
Theorem access_key_and_security_token_headers (self : NamingGRPCClientProxy)
    (req : Request) (cls : ResponseClass) (w : World) (ak sk : pystr)
    (q : Request) (t : Z) :
  access_key_id (credentials (client_config self)) = Some ak ->
  access_key_secret (credentials (client_config self)) = Some sk ->
  ak <> [] -> sk <> [] ->
  EvRpcRequest q t ∈ new_events w (request_naming_server self req cls w).2 ->
  headers q !! PyStr.lit "ak" = Some ak
  /\ (forall tok,
        security_token (credentials (client_config self)) = Some tok -> tok <> [] ->
        headers q !! PyStr.lit "Spas-SecurityToken" = Some tok)
  /\ (security_token (credentials (client_config self)) = None
      \/ security_token (credentials (client_config self)) = Some [] ->
      exists h,
        inject_security_info (nacos_server_connector self) (headers req) = Returns h
        /\ headers q !! PyStr.lit "Spas-SecurityToken"
           = h !! PyStr.lit "Spas-SecurityToken").
Proof.
  intros Hak Hsk Hak0 Hsk0 Hin.
  destruct (dispatched_request _ _ _ _ _ _ Hin) as (h & c & Hinj & Hs & _ & _).
  pose proof (sign_with_access_key _ _ _ _ _ _ Hak Hsk Hak0 Hsk0 Hs) as Hsigned.
  cbv zeta in Hsigned. destruct Hsigned as (kb & mb & _ & _ & Hakh & _).
  pose proof (sign_token _ _ _ _ _ _ Hak Hsk Hak0 Hsk0 Hs) as Htok.
  split; [exact Hakh|]. split.
  - intros tok Heq Hne. rewrite Heq in Htok. by destruct tok.
  - intros Hno. exists h. split; [done|].
    by destruct Hno as [Heq | Heq]; rewrite Heq in Htok.
Qed.

(** X9: whatever the credentials, the security injection is called on the
    headers of the request as given, and signing changes nothing but the
    four signing headers: every other header of a request dispatched is as
    the injection returned it, and namespace, service, group and body are
    those of the request given. *)
Theorem signing_changes_signing_headers_only (self : NamingGRPCClientProxy)
    (req : Request) (cls : ResponseClass) (w : World) (q : Request) (t : Z) :
  EvRpcRequest q t ∈ new_events w (request_naming_server self req cls w).2 ->
  (exists h,
     inject_security_info (nacos_server_connector self) (headers req) = Returns h
     /\ forall k, ~ In k signing_headers -> headers q !! k = h !! k)
  /\ namespace q = namespace req /\ serviceName q = serviceName req
  /\ groupName q = groupName req /\ body q = body req.
Proof.
  intros Hin.
  destruct (dispatched_request _ _ _ _ _ _ Hin) as (h & c & Hinj & Hs & _ & _).
  destruct (sign_frame _ _ _ _ Hs) as (Hh & Hrest).
  split; [by exists h | exact Hrest].
Qed.

(** X10: with a complete access key, the header "signature" of every
    request dispatched is a text of 28 characters, each a letter of the
    base64 alphabet or the padding sign, none of them whitespace. *)
Theorem signature_is_28_base64_characters (self : NamingGRPCClientProxy)
    (req : Request) (cls : ResponseClass) (w : World) (ak sk : pystr)
    (q : Request) (t : Z) :
  access_key_id (credentials (client_config self)) = Some ak ->
  access_key_secret (credentials (client_config self)) = Some sk ->
  ak <> [] -> sk <> [] ->
  EvRpcRequest q t ∈ new_events w (request_naming_server self req cls w).2 ->
  exists signature,
    headers q !! PyStr.lit "signature" = Some signature
    /\ length signature = 28%nat
    /\ Forall (fun c => In c Base64.alphabet \/ c = Base64.pad_char) signature
    /\ Forall (fun c => PyStr.is_space c = false) signature.
Proof.
  intros Hak Hsk Hak0 Hsk0 Hin.
  destruct (dispatched_request _ _ _ _ _ _ Hin) as (h & c & _ & Hs & _ & _).
  pose proof (sign_with_access_key _ _ _ _ _ _ Hak Hsk Hak0 Hsk0 Hs) as Hsigned.
  cbv zeta in Hsigned. destruct Hsigned as (kb & mb & _ & _ & _ & _ & Hsig & _).
  destruct (SignatureFacts.signature_text (HMAC.sha1 kb mb)
              (SignatureFacts.hmac_length kb mb)) as [Hstrip Hb64].
  rewrite Hstrip, Hb64 in Hsig. unfold PyStr.decode in Hsig.
  eexists. split; [exact Hsig|]. split; [|split].
  - rewrite EncodingFacts.b64encode_length, SignatureFacts.hmac_length. done.
  - apply SignatureFacts.b64encode_Forall; auto.
  - apply SignatureFacts.b64encode_no_space.
Qed.


(** X24: when the security injection raises, the call ends there: nothing
    is signed or dispatched, and the exception goes through the [except]
    clauses like any other (wrapped when it is an [Exception], as it is
    otherwise). *)
Theorem failed_injection_dispatches_nothing (self : NamingGRPCClientProxy)
    (req : Request) (cls : ResponseClass) (w : World) (e : PyExn) :
  inject_security_info (nacos_server_connector self) (headers req) = Raises e ->
  (request_naming_server self req cls w).1 = Raises (reraised e)
  /\ new_events w (request_naming_server self req cls w).2 = logged e
  /\ count_events is_dispatch (new_events w (request_naming_server self req cls w).2)
     = 0%nat.
Proof.
  intros Hinj.
  assert (Hb : (before_dispatch self req w).1 = Raises e).
  { unfold before_dispatch, bind, lift. by rewrite Hinj. }
  rewrite (rns_unsent _ _ _ _ _ Hb). simpl. rewrite new_events_add.
  repeat split. by destruct e.
Qed.

End MoreSigning.

(* ===================================================================== *)
(** * More about the public operations *)
(* ===================================================================== *)

Section MoreOperations.

Context `{Imports}.

Lemma redo_registrations_add_events (l : list Event) (w : World) :
  redo_registrations (add_events l w) = redo_registrations w.
Proof. done. Qed.

Lemma redo_subscriptions_add_events (l : list Event) (w : World) :
  redo_subscriptions (add_events l w) = redo_subscriptions w.
Proof. done. Qed.

Ltac not_that_event :=
  first [ intros (? & ? & ?); discriminate
        | intros (? & ?); discriminate
        | intros ?; discriminate ].

Ltac run_of_rns cls :=
  rewrite ?add_events_app, ?redo_registrations_add_events, ?redo_subscriptions_add_events;
  simpl app;
  match goal with
  | |- context [request_naming_server ?self ?req cls ?w1] =>
      let new := fresh "new" in
      let res := fresh "res" in
      let Heq := fresh "Heq" in
      let Hrun := fresh "Hrun" in
      destruct (rns_sound self req cls w1) as (new & res & Heq & Hrun);
      rewrite Heq; eexists _, _, new, res
  end.

(** The world in which the RPC of [register_instance] runs, and the world
    the call leaves. *)
Lemma register_instance_exact (self : NamingGRPCClientProxy) (s g : pystr)
    (i : Instance) (w : World) :
  exists text args new res,
    let w1 :=
      with_redo_registrations
        (<[get_group_name s g := RedoInstance i]> (redo_registrations w))
        (add_events [EvLog INFO text args; EvCacheInstanceForRedo s g i] w) in
    rns_run self
      (InstanceRequest (proxy_namespace_id self) s g i REGISTER_INSTANCE)
      InstanceResponse w1 new res
    /\ register_instance self s g i w
       = (match res with Returns r => Returns (success r) | Raises e => Raises e end,
          add_events new w1).
Proof.
  unfold register_instance, cache_instance_for_redo, logger_info, set_redo_registrations,
    bind, emit.
  run_of_rns InstanceResponse.
  split; [exact Hrun | by destruct res].
Qed.

Lemma batch_register_instance_exact (self : NamingGRPCClientProxy) (s g : pystr)
    (l : list Instance) (w : World) :
  exists text args new res,
    let w1 :=
      with_redo_registrations
        (<[get_group_name s g := RedoInstances l]> (redo_registrations w))
        (add_events [EvLog INFO text args; EvCacheInstancesForRedo s g l] w) in
    rns_run self
      (BatchInstanceRequest (proxy_namespace_id self) s g l BATCH_REGISTER_INSTANCE)
      BatchInstanceResponse w1 new res
    /\ batch_register_instance self s g l w
       = (match res with Returns r => Returns (success r) | Raises e => Raises e end,
          add_events new w1).
Proof.
  unfold batch_register_instance, cache_instances_for_redo, logger_info,
    set_redo_registrations, bind, emit.
  run_of_rns BatchInstanceResponse.
  split; [exact Hrun | by destruct res].
Qed.

Lemma list_services_exact (self : NamingGRPCClientProxy) (param : ListServiceParam)
    (w : World) :
  exists text args new res,
    let w1 := add_events [EvLog INFO text args] w in
    rns_run self
      (ServiceListRequest (param_namespace_id param) (group_name param) []
         (page_no param) (page_size param))
      ServiceListResponse w1 new res
    /\ list_services self param w
       = (match res with
          | Returns r =>
              Returns {| ServiceList_count := count r; services := serviceNames r |}
          | Raises e => Raises e
          end,
          add_events new w1).
Proof.
  unfold list_services, logger_info, bind, emit.
  run_of_rns ServiceListResponse.
  split; [exact Hrun | by destruct res].
Qed.

Lemma subscribe_exact (self : NamingGRPCClientProxy) (s g c : pystr) (w : World) :
  exists text args new res,
    let w1 :=
      with_redo_subscriptions
        (<[(get_group_name s g, c) := tt]> (redo_subscriptions w))
        (add_events [EvLog INFO text args;
                     EvCacheSubscribeForRedo (get_group_name s g) c] w) in
    rns_run self
      (put_header (PyStr.lit "app") (app_name (client_config self))
         (SubscribeServiceRequest (proxy_namespace_id self) g s c true))
      SubscribeServiceResponse w1 new res
    /\ subscribe self s g c w
       = match res with
         | Returns r =>
             if success r then (Returns (serviceInfo r), add_events new w1)
             else
               (Returns None,
                add_events
                  (new ++ [EvLog ERROR
                     (PyStr.lit "failed to subscribe service_name:%s, group_name:%s, clusters:%s, namespace:%s, response:%s")
                     [LogStr s; LogStr g; LogStr c; LogStr (proxy_namespace_id self);
                      LogResponse r]])
                  w1)
         | Raises e => (Raises e, add_events new w1)
         end.
Proof.
  unfold subscribe, cache_subscribe_for_redo, logger_info, logger_error,
    set_redo_subscriptions, bind, emit.
  run_of_rns SubscribeServiceResponse.
  split; [exact Hrun|].
  destruct res as [r|e]; [|done].
  destruct (success r); simpl; [done|]. by rewrite add_events_app.
Qed.

Lemma unsubscribe_exact (self : NamingGRPCClientProxy) (s g c : pystr) (w : World) :
  exists text args new res,
    let w1 :=
      with_redo_subscriptions
        (delete (get_group_name s g, c) (redo_subscriptions w))
        (add_events [EvLog INFO text args;
                     EvRemoveSubscriberForRedo (get_group_name s g) c] w) in
    rns_run self
      (SubscribeServiceRequest (proxy_namespace_id self) g s c false)
      SubscribeServiceResponse w1 new res
    /\ unsubscribe self s g c w
       = (match res with Returns _ => Returns tt | Raises e => Raises e end,
          add_events new w1).
Proof.
  unfold unsubscribe, remove_subscriber_for_redo, logger_info,
    set_redo_subscriptions, bind, emit.
  run_of_rns SubscribeServiceResponse.
  split; [exact Hrun | by destruct res].
Qed.

Lemma new_events_after_registration (t : gmap pystr RedoData) (l0 new : list Event)
    (w : World) :
  new_events w (add_events new (with_redo_registrations t (add_events l0 w))) = l0 ++ new.
Proof. apply new_events_app. simpl. by rewrite app_assoc. Qed.

Lemma new_events_after_subscription (t : gmap (pystr * pystr) unit) (l0 new : list Event)
    (w : World) :
  new_events w (add_events new (with_redo_subscriptions t (add_events l0 w))) = l0 ++ new.
Proof. apply new_events_app. simpl. by rewrite app_assoc. Qed.

Lemma new_events_after_log (l0 new : list Event) (w : World) :
  new_events w (add_events new (add_events l0 w)) = l0 ++ new.
Proof. rewrite add_events_app. apply new_events_add. Qed.

(** X12: [batch_register_instance] records the instance list in the redo
    table before it dispatches anything, and the entry is there when the
    call ends, whatever its outcome; when the RPC is answered by a response
    with result code 200 and a class that passes the check, the call returns
    its success flag. *)
Theorem batch_register_records_redo_before_rpc (self : NamingGRPCClientProxy)
    (s g : pystr) (l : list Instance) (w : World) :
  EvCacheInstancesForRedo s g l ∈ new_events w (batch_register_instance self s g l w).2
  /\ happens_before (eq (EvCacheInstancesForRedo s g l)) is_rpc_request
       (new_events w (batch_register_instance self s g l w).2)
  /\ redo_registrations (batch_register_instance self s g l w).2 !! get_group_name s g
     = Some (RedoInstances l)
  /\ (forall r,
        EvRpcResponse r ∈ new_events w (batch_register_instance self s g l w).2 ->
        resultCode r = 200 ->
        issubclass (class_of r) BatchInstanceResponse = true ->
        (batch_register_instance self s g l w).1 = Returns (success r)).
Proof.
  destruct (batch_register_instance_exact self s g l w)
    as (text & args & new & res & Hrun & ->).
  simpl. rewrite new_events_after_registration.
  split; [|split; [|split]].
  - apply list_elem_of_further, list_elem_of_here.
  - apply happens_before_cons_other; [not_that_event|].
    apply happens_before_cons_first; [done | not_that_event].
  - apply lookup_insert_eq.
  - intros r Hin Hcode Hsub.
    repeat (apply elem_of_cons in Hin as [Hin | Hin]; [discriminate|]).
    destruct (rns_run_response _ _ _ _ _ _ _ Hrun Hin)
      as [[Hne _] | [(_ & Hsub' & _) | (_ & _ & -> & _)]];
      [contradiction | congruence | done].
Qed.

(** X13: when the RPC of [register_instance] is answered by a response with
    result code 200 and a class that passes the check, the call returns its
    success flag; the redo entry of the instance stays in the table also
    when that flag is false. *)
Theorem register_returns_success_flag (self : NamingGRPCClientProxy)
    (s g : pystr) (i : Instance) (w : World) (r : Response) :
  EvRpcResponse r ∈ new_events w (register_instance self s g i w).2 ->
  resultCode r = 200 ->
  issubclass (class_of r) InstanceResponse = true ->
  (register_instance self s g i w).1 = Returns (success r)
  /\ redo_registrations (register_instance self s g i w).2 !! get_group_name s g
     = Some (RedoInstance i).
Proof.
  destruct (register_instance_exact self s g i w)
    as (text & args & new & res & Hrun & ->).
  simpl. rewrite new_events_after_registration.
  intros Hin Hcode Hsub. split; [|apply lookup_insert_eq].
  repeat (apply elem_of_cons in Hin as [Hin | Hin]; [discriminate|]).
  destruct (rns_run_response _ _ _ _ _ _ _ Hrun Hin)
    as [[Hne _] | [(_ & Hsub' & _) | (_ & _ & -> & _)]];
    [contradiction | congruence | done].
Qed.

(** X14: what the three registration operations do to the redo tables,
    whatever their outcome: [register_instance] and
    [batch_register_instance] replace the entry of their service key and
    nothing else; [deregister_instance] removes that entry when it returns
    and changes nothing when it raises; none of them touches the table of
    subscriptions. *)
Theorem registration_operations_touch_one_key (self : NamingGRPCClientProxy)
    (s g : pystr) (i : Instance) (l : list Instance) (w : World) :
  (redo_registrations (register_instance self s g i w).2
   = <[get_group_name s g := RedoInstance i]> (redo_registrations w)
   /\ redo_subscriptions (register_instance self s g i w).2 = redo_subscriptions w)
  /\ (redo_registrations (batch_register_instance self s g l w).2
      = <[get_group_name s g := RedoInstances l]> (redo_registrations w)
      /\ redo_subscriptions (batch_register_instance self s g l w).2
         = redo_subscriptions w)
  /\ (redo_registrations (deregister_instance self s g i w).2
      = match (deregister_instance self s g i w).1 with
        | Returns _ => delete (get_group_name s g) (redo_registrations w)
        | Raises _ => redo_registrations w
        end
      /\ redo_subscriptions (deregister_instance self s g i w).2 = redo_subscriptions w).
Proof.
  split; [|split].
  - by destruct (register_instance_exact self s g i w)
      as (text & args & new & res & Hrun & ->).
  - by destruct (batch_register_instance_exact self s g l w)
      as (text & args & new & res & Hrun & ->).
  - destruct (deregister_instance_run self s g i w)
      as (text & args & new & res & Hrun & ->).
    by destruct res.
Qed.

(** X15: [subscribe] records the subscription in the redo table before it
    dispatches anything; the entry is there when the call ends, whatever its
    outcome, and the table of registrations is as it was. *)
Theorem subscribe_records_subscription_before_rpc (self : NamingGRPCClientProxy)
    (s g c : pystr) (w : World) :
  happens_before (eq (EvCacheSubscribeForRedo (get_group_name s g) c)) is_rpc_request
    (new_events w (subscribe self s g c w).2)
  /\ redo_subscriptions (subscribe self s g c w).2
     = <[(get_group_name s g, c) := tt]> (redo_subscriptions w)
  /\ redo_registrations (subscribe self s g c w).2 = redo_registrations w.
Proof.
  destruct (subscribe_exact self s g c w) as (text & args & new & res & Hrun & ->).
  assert (Hbefore : forall tail,
            happens_before (eq (EvCacheSubscribeForRedo (get_group_name s g) c))
              is_rpc_request
              ([EvLog INFO text args; EvCacheSubscribeForRedo (get_group_name s g) c]
               ++ tail)).
  { intros tail. apply happens_before_cons_other; [not_that_event|].
    apply happens_before_cons_first; [done | not_that_event]. }
  destruct res as [r|e]; [destruct (success r)|]; simpl;
    rewrite new_events_after_subscription; auto.
Qed.

(** X16: [unsubscribe] removes the subscription from the redo table before
    it dispatches anything, so the entry is gone when the call ends even if
    the RPC has failed; and when the RPC is answered by a response with
    result code 200 and a class that passes the check, the call returns
    [None] without looking at the success flag and without logging an
    error. *)
Theorem unsubscribe_removes_before_rpc_and_ignores_flag (self : NamingGRPCClientProxy)
    (s g c : pystr) (w : World) :
  happens_before (eq (EvRemoveSubscriberForRedo (get_group_name s g) c)) is_rpc_request
    (new_events w (unsubscribe self s g c w).2)
  /\ redo_subscriptions (unsubscribe self s g c w).2
     = delete (get_group_name s g, c) (redo_subscriptions w)
  /\ redo_subscriptions (unsubscribe self s g c w).2 !! (get_group_name s g, c) = None
  /\ (forall r,
        EvRpcResponse r ∈ new_events w (unsubscribe self s g c w).2 ->
        resultCode r = 200 ->
        issubclass (class_of r) SubscribeServiceResponse = true ->
        (unsubscribe self s g c w).1 = Returns tt
        /\ count_events is_error_log (new_events w (unsubscribe self s g c w).2) = 0%nat).
Proof.
  destruct (unsubscribe_exact self s g c w) as (text & args & new & res & Hrun & ->).
  simpl. rewrite new_events_after_subscription.
  split; [|split; [done|split; [apply lookup_delete_eq|]]].
  - apply happens_before_cons_other; [not_that_event|].
    apply happens_before_cons_first; [done | not_that_event].
  - intros r Hin Hcode Hsub.
    repeat (apply elem_of_cons in Hin as [Hin | Hin]; [discriminate|]).
    destruct (rns_run_response _ _ _ _ _ _ _ Hrun Hin)
      as [[Hne _] | [(_ & Hsub' & _) | (_ & _ & -> & q & ->)]];
      [contradiction | congruence | done].
Qed.

(** X17: when the RPC of [list_services] is answered by a response with
    result code 200 and a class that passes the check, the call returns the
    count and the service names of the response, without looking at its
    success flag.  The request it dispatches has the namespace, the group
    and the page of the parameter (not the namespace of the proxy) and an
    empty service name; the redo tables are as they were. *)
Theorem list_services_returns_count_and_names (self : NamingGRPCClientProxy)
    (param : ListServiceParam) (w : World) :
  (forall r,
     EvRpcResponse r ∈ new_events w (list_services self param w).2 ->
     resultCode r = 200 ->
     issubclass (class_of r) ServiceListResponse = true ->
     (list_services self param w).1
     = Returns {| ServiceList_count := count r; services := serviceNames r |})
  /\ (forall q t,
        EvRpcRequest q t ∈ new_events w (list_services self param w).2 ->
        namespace q = param_namespace_id param /\ groupName q = group_name param
        /\ serviceName q = []
        /\ body q = ServiceListRequestBody (page_no param) (page_size param))
  /\ redo_registrations (list_services self param w).2 = redo_registrations w
  /\ redo_subscriptions (list_services self param w).2 = redo_subscriptions w.
Proof.
  destruct (list_services_exact self param w) as (text & args & new & res & Hrun & ->).
  simpl. rewrite new_events_after_log.
  split; [|split; [|done]].
  - intros r Hin Hcode Hsub.
    repeat (apply elem_of_cons in Hin as [Hin | Hin]; [discriminate|]).
    destruct (rns_run_response _ _ _ _ _ _ _ Hrun Hin)
      as [[Hne _] | [(_ & Hsub' & _) | (_ & _ & -> & _)]];
      [contradiction | congruence | done].
  - intros q t Hin.
    repeat (apply elem_of_cons in Hin as [Hin | Hin]; [discriminate|]).
    destruct (rns_run_dispatched _ _ _ _ _ _ _ _ Hrun Hin) as (_ & (c & Hb) & _).
    destruct (before_dispatch_returns _ _ _ _ _ Hb) as (h & _ & Hs & _).
    destruct (sign_frame _ _ _ _ Hs) as (_ & Hn & Hsn & Hg & Hbody).
    by rewrite Hn, Hsn, Hg, Hbody.
Qed.

(** The redo tables after each operation. *)
Lemma register_tables (self : NamingGRPCClientProxy) (s g : pystr) (i : Instance)
    (w : World) :
  redo_registrations (register_instance self s g i w).2
  = <[get_group_name s g := RedoInstance i]> (redo_registrations w).
Proof.
  by destruct (register_instance_exact self s g i w)
    as (text & args & new & res & Hrun & ->).
Qed.

Lemma deregister_tables (self : NamingGRPCClientProxy) (s g : pystr) (i : Instance)
    (w : World) :
  redo_registrations (deregister_instance self s g i w).2
  = match (deregister_instance self s g i w).1 with
    | Returns _ => delete (get_group_name s g) (redo_registrations w)
    | Raises _ => redo_registrations w
    end.
Proof.
  destruct (deregister_instance_run self s g i w)
    as (text & args & new & res & Hrun & ->).
  by destruct res.
Qed.

Lemma subscribe_tables (self : NamingGRPCClientProxy) (s g c : pystr) (w : World) :
  redo_subscriptions (subscribe self s g c w).2
  = <[(get_group_name s g, c) := tt]> (redo_subscriptions w).
Proof.
  destruct (subscribe_exact self s g c w) as (text & args & new & res & Hrun & ->).
  by destruct res as [r|e]; [destruct (success r)|].
Qed.

Lemma unsubscribe_tables (self : NamingGRPCClientProxy) (s g c : pystr) (w : World) :
  redo_subscriptions (unsubscribe self s g c w).2
  = delete (get_group_name s g, c) (redo_subscriptions w).
Proof.
  by destruct (unsubscribe_exact self s g c w) as (text & args & new & res & Hrun & ->).
Qed.

(** X18: [register_instance] followed by [deregister_instance] for the same
    service and group: when the deregistration returns, the redo table is
    the one from before the registration without the entry of the key; when
    it raises, the entry of the registration is still there. *)
Theorem register_then_deregister (self : NamingGRPCClientProxy) (s g : pystr)
    (i i' : Instance) (w : World) :
  redo_registrations
    (deregister_instance self s g i' (register_instance self s g i w).2).2
  = match (deregister_instance self s g i' (register_instance self s g i w).2).1 with
    | Returns _ => delete (get_group_name s g) (redo_registrations w)
    | Raises _ => <[get_group_name s g := RedoInstance i]> (redo_registrations w)
    end.
Proof.
  rewrite deregister_tables, register_tables.
  destruct (deregister_instance _ _ _ _ _).1; [apply delete_insert_eq | done].
Qed.

(** X19: two calls of [register_instance] for the same service and group
    leave one redo entry, that of the second call, whatever the outcomes of
    the two RPCs. *)
Theorem register_twice_keeps_the_latest (self : NamingGRPCClientProxy) (s g : pystr)
    (i1 i2 : Instance) (w : World) :
  redo_registrations
    (register_instance self s g i2 (register_instance self s g i1 w).2).2
  = <[get_group_name s g := RedoInstance i2]> (redo_registrations w).
Proof. rewrite !register_tables. apply insert_insert_eq. Qed.

(** X20: [subscribe] followed by [unsubscribe] for the same service, group
    and clusters leaves the table of subscriptions as it was before, without
    the entry of that subscription, whatever the outcomes of the two RPCs. *)
Theorem subscribe_then_unsubscribe (self : NamingGRPCClientProxy) (s g c : pystr)
    (w : World) :
  redo_subscriptions (unsubscribe self s g c (subscribe self s g c w).2).2
  = delete (get_group_name s g, c) (redo_subscriptions w).
Proof. rewrite unsubscribe_tables, subscribe_tables. apply delete_insert_eq. Qed.

(** The fields of a request dispatched by a run are those of the request
    the run was given. *)
Lemma rns_run_request_fields (self : NamingGRPCClientProxy) (req : Request)
    (cls : ResponseClass) (w : World) (new : list Event) (res : Outcome Response)
    (q : Request) (t : Z) :
  rns_run self req cls w new res ->
  EvRpcRequest q t ∈ new ->
  namespace q = namespace req /\ serviceName q = serviceName req
  /\ groupName q = groupName req /\ body q = body req.
Proof.
  intros Hrun Hin.
  destruct (rns_run_dispatched _ _ _ _ _ _ _ _ Hrun Hin) as (_ & (c & Hb) & _).
  destruct (before_dispatch_returns _ _ _ _ _ Hb) as (h & _ & Hs & _).
  by destruct (sign_frame _ _ _ _ Hs) as (_ & Hrest).
Qed.

(** X21: the requests of the three registration operations.  Every request
    that [register_instance] dispatches is an instance request of type
    [REGISTER_INSTANCE] with the instance of the call, every one of
    [deregister_instance] is of type [DE_REGISTER_INSTANCE], and every one of
    [batch_register_instance] is a batch request of type
    [BATCH_REGISTER_INSTANCE] with the list of the call; all carry the
    namespace of the proxy and the service and group of the call. *)
Theorem registration_requests (self : NamingGRPCClientProxy) (s g : pystr)
    (i : Instance) (l : list Instance) (w : World) :
  (forall q t,
     EvRpcRequest q t ∈ new_events w (register_instance self s g i w).2 ->
     namespace q = proxy_namespace_id self /\ serviceName q = s /\ groupName q = g
     /\ body q = InstanceRequestBody REGISTER_INSTANCE i)
  /\ (forall q t,
        EvRpcRequest q t ∈ new_events w (deregister_instance self s g i w).2 ->
        namespace q = proxy_namespace_id self /\ serviceName q = s /\ groupName q = g
        /\ body q = InstanceRequestBody DE_REGISTER_INSTANCE i)
  /\ (forall q t,
        EvRpcRequest q t ∈ new_events w (batch_register_instance self s g l w).2 ->
        namespace q = proxy_namespace_id self /\ serviceName q = s /\ groupName q = g
        /\ body q = BatchInstanceRequestBody BATCH_REGISTER_INSTANCE l).
Proof.
  split; [|split]; intros q t Hin.
  - destruct (register_instance_exact self s g i w)
      as (text & args & new & res & Hrun & Heq).
    rewrite Heq in Hin. simpl in Hin. rewrite new_events_after_registration in Hin.
    repeat (apply elem_of_cons in Hin as [Hin | Hin]; [discriminate|]).
    exact (rns_run_request_fields _ _ _ _ _ _ _ _ Hrun Hin).
  - destruct (deregister_instance_run self s g i w)
      as (text & args & new & res & Hrun & Heq).
    rewrite Heq in Hin.
    assert (Hnew : EvRpcRequest q t ∈ new).
    { destruct res; simpl in Hin.
      - rewrite new_events_with_redo_registrations in Hin.
        apply elem_of_cons in Hin as [Hin | Hin]; [discriminate|].
        apply elem_of_app in Hin as [Hin | Hin]; [done|].
        apply list_elem_of_singleton in Hin. discriminate.
      - rewrite new_events_add in Hin.
        apply elem_of_cons in Hin as [Hin | Hin]; [discriminate | done]. }
    exact (rns_run_request_fields _ _ _ _ _ _ _ _ Hrun Hnew).
  - destruct (batch_register_instance_exact self s g l w)
      as (text & args & new & res & Hrun & Heq).
    rewrite Heq in Hin. simpl in Hin. rewrite new_events_after_registration in Hin.
    repeat (apply elem_of_cons in Hin as [Hin | Hin]; [discriminate|]).
    exact (rns_run_request_fields _ _ _ _ _ _ _ _ Hrun Hin).
Qed.

(** X23: a proxy as [__init__] leaves it has the namespace of its
    configuration and no client.  Until [start()] has run, [close_client]
    logs its line and raises a bare [AttributeError], which nothing wraps,
    without shutting anything down, [server_health] raises one too, and
    [request_naming_server] dispatches nothing. *)
Theorem fresh_proxy_has_no_client (cfg : ClientConfig) (connector : NacosServerConnector)
    (req : Request) (cls : ResponseClass) (w : World) :
  proxy_namespace_id (__init__ cfg connector) = namespace_id cfg
  /\ (close_client (__init__ cfg connector) w).1
     = Raises (PyException (PyStr.lit "AttributeError")
         (PyStr.lit "'NoneType' object has no attribute 'shutdown'"))
  /\ new_events w (close_client (__init__ cfg connector) w).2
     = [EvLog INFO (PyStr.lit "close Nacos python naming grpc client...") []]
  /\ server_health (__init__ cfg connector)
     = Raises (PyException (PyStr.lit "AttributeError")
         (PyStr.lit "'NoneType' object has no attribute 'is_running'"))
  /\ count_events is_dispatch
       (new_events w (request_naming_server (__init__ cfg connector) req cls w).2)
     = 0%nat.
Proof.
  split; [done|]. split; [done|].
  split; [unfold close_client, logger_info, bind, emit; simpl; apply new_events_add|].
  split; [done|].
  assert (Hb : forall c q,
            (before_dispatch (__init__ cfg connector) req w).1 <> Returns (c, q)).
  { intros c q Hb. by apply before_dispatch_returns in Hb as (h & _ & _ & Hc). }
  destruct (rns_sound (__init__ cfg connector) req cls w) as (new & res & -> & Hrun).
  simpl. rewrite new_events_add.
  inversion Hrun as [e He | c q e Hb' Hs | c q r' Hb' Hs Hc | c q r' Hb' Hs Hc Hi
                     | c q r' Hb' Hs Hc Hi]; subst;
    try (by apply Hb in Hb').
  rewrite count_logged. by destruct e.
Qed.

End MoreOperations.

(* ===================================================================== *)
(** * The further theorems at sample inputs *)
(* ===================================================================== *)

Lemma returned_response_is_accepted_witness :
  let run :=
    @request_naming_server Sample.imports (Sample.proxy Sample.no_credentials (Returns Sample.ok))
      Sample.register_request InstanceResponse Sample.world in
  run.1 = Returns Sample.ok
  /\ resultCode Sample.ok = 200
  /\ new_events Sample.world run.2
     = [EvRpcRequest Sample.register_request 3000; EvRpcResponse Sample.ok].
Proof.
  cbv zeta.
  assert (Hret : (@request_naming_server Sample.imports
                    (Sample.proxy Sample.no_credentials (Returns Sample.ok))
                    Sample.register_request InstanceResponse Sample.world).1
                 = Returns Sample.ok) by (vm_compute; reflexivity).
  split; [exact Hret|].
  destruct (returned_response_is_accepted _ _ _ _ _ Hret) as (Hcode & _ & q & Hq).
  split; [exact Hcode|]. vm_compute. reflexivity.
Defined.

Lemma at_most_one_dispatch_witness :
  let run :=
    @request_naming_server Sample.imports (Sample.proxy Sample.no_credentials (Returns Sample.ok))
      Sample.register_request InstanceResponse Sample.world in
  EvRpcRequest Sample.register_request 3000 ∈ new_events Sample.world run.2
  /\ (count_events is_dispatch (new_events Sample.world run.2) <= 1)%nat
  /\ 3000 = grpc_timeout (grpc_config (Sample.config Sample.no_credentials)).
Proof.
  cbv zeta.
  assert (Hin : EvRpcRequest Sample.register_request 3000
                  ∈ new_events Sample.world
                      (@request_naming_server Sample.imports
                         (Sample.proxy Sample.no_credentials (Returns Sample.ok))
                         Sample.register_request InstanceResponse Sample.world).2)
    by in_trace.
  split; [exact Hin|].
  destruct (@at_most_one_dispatch Sample.imports
              (Sample.proxy Sample.no_credentials (Returns Sample.ok))
              Sample.register_request InstanceResponse Sample.world)
    as (Hone & _ & Htimeout).
  split; [exact Hone | exact (Htimeout _ _ Hin)].
Defined.

Lemma nacos_exception_is_reraised_unchanged_witness :
  let self :=
    Sample.proxy Sample.no_credentials (Raises (NacosException 403 (PyStr.lit "denied"))) in
  let run :=
    @request_naming_server Sample.imports self Sample.register_request InstanceResponse
      Sample.world in
  @fault_raised Sample.imports self Sample.register_request Sample.world
    (NacosException 403 (PyStr.lit "denied"))
  /\ run.1 = Raises (NacosException 403 (PyStr.lit "denied"))
  /\ count_events is_error_log (new_events Sample.world run.2) = 1%nat.
Proof.
  cbv zeta.
  assert (Hfault : @fault_raised Sample.imports
                     (Sample.proxy Sample.no_credentials
                        (Raises (NacosException 403 (PyStr.lit "denied"))))
                     Sample.register_request Sample.world
                     (NacosException 403 (PyStr.lit "denied"))).
  { right. eexists _, _. split; vm_compute; reflexivity. }
  split; [exact Hfault|].
  exact (nacos_exception_is_reraised_unchanged _ _ InstanceResponse _ _ _ Hfault).
Defined.

Lemma base_exception_passes_unlogged_witness :
  let self :=
    Sample.proxy Sample.no_credentials
      (Raises (PyBaseException (PyStr.lit "CancelledError") [])) in
  let run :=
    @request_naming_server Sample.imports self Sample.register_request InstanceResponse
      Sample.world in
  @fault_raised Sample.imports self Sample.register_request Sample.world
    (PyBaseException (PyStr.lit "CancelledError") [])
  /\ run.1 = Raises (PyBaseException (PyStr.lit "CancelledError") [])
  /\ count_events is_error_log (new_events Sample.world run.2) = 0%nat.
Proof.
  cbv zeta.
  assert (Hfault : @fault_raised Sample.imports
                     (Sample.proxy Sample.no_credentials
                        (Raises (PyBaseException (PyStr.lit "CancelledError") [])))
                     Sample.register_request Sample.world
                     (PyBaseException (PyStr.lit "CancelledError") [])).
  { right. eexists _, _. split; vm_compute; reflexivity. }
  split; [exact Hfault|].
  exact (base_exception_passes_unlogged _ _ InstanceResponse _ _ _ Hfault).
Defined.

Lemma not_started_raises_and_dispatches_nothing_witness :
  let run :=
    @request_naming_server Sample.imports Sample.fresh_proxy Sample.register_request
      InstanceResponse Sample.world in
  rpc_client Sample.fresh_proxy = None
  /\ count_events is_dispatch (new_events Sample.world run.2) = 0%nat
  /\ run.1
     = Raises (NacosException 500
         (PyStr.lit "Request nacos naming server failed: 'NoneType' object has no attribute 'request'")).
Proof.
  cbv zeta. split; [reflexivity|].
  destruct (@not_started_raises_and_dispatches_nothing Sample.imports Sample.fresh_proxy
              Sample.register_request InstanceResponse Sample.world eq_refl)
    as (Hnone & _ & Hwrapped).
  split; [exact Hnone|].
  apply (Hwrapped ∅ Sample.register_request); vm_compute; reflexivity.
Defined.

Lemma access_key_and_security_token_headers_witness :
  let self := Sample.proxy Sample.token_credentials (Returns Sample.ok) in
  let run :=
    @request_naming_server Sample.imports self Sample.register_request InstanceResponse
      Sample.world in
  (access_key_id (credentials (client_config self)) = Some (PyStr.lit "AK")
   /\ access_key_secret (credentials (client_config self)) = Some (PyStr.lit "secret")
   /\ PyStr.lit "AK" <> [] /\ PyStr.lit "secret" <> []
   /\ EvRpcRequest Sample.signed_token_request 3000 ∈ new_events Sample.world run.2)
  /\ headers Sample.signed_token_request !! PyStr.lit "ak" = Some (PyStr.lit "AK")
  /\ headers Sample.signed_token_request !! PyStr.lit "Spas-SecurityToken"
     = Some (PyStr.lit "sts-token").
Proof.
  cbv zeta.
  assert (Hin : EvRpcRequest Sample.signed_token_request 3000
                  ∈ new_events Sample.world
                      (@request_naming_server Sample.imports
                         (Sample.proxy Sample.token_credentials (Returns Sample.ok))
                         Sample.register_request InstanceResponse Sample.world).2)
    by in_trace.
  assert (Hak : PyStr.lit "AK" <> []) by (vm_compute; discriminate).
  assert (Hsk : PyStr.lit "secret" <> []) by (vm_compute; discriminate).
  assert (Htok : PyStr.lit "sts-token" <> []) by (vm_compute; discriminate).
  split; [repeat split; assumption|].
  destruct (@access_key_and_security_token_headers Sample.imports
              (Sample.proxy Sample.token_credentials (Returns Sample.ok))
              Sample.register_request InstanceResponse Sample.world
              (PyStr.lit "AK") (PyStr.lit "secret") Sample.signed_token_request 3000
              eq_refl eq_refl Hak Hsk Hin)
    as (Hakh & Htoken & _).
  split; [exact Hakh | exact (Htoken _ eq_refl Htok)].
Defined.

Lemma signing_changes_signing_headers_only_witness :
  let self := Sample.proxy Sample.signed_credentials (Returns Sample.ok) in
  let run :=
    @request_naming_server Sample.imports self Sample.register_request InstanceResponse
      Sample.world in
  EvRpcRequest Sample.signed_register_request 3000 ∈ new_events Sample.world run.2
  /\ body Sample.signed_register_request = body Sample.register_request
  /\ exists h,
       inject_security_info (nacos_server_connector self) (headers Sample.register_request)
         = Returns h
       /\ forall k, ~ In k signing_headers ->
            headers Sample.signed_register_request !! k = h !! k.
Proof.
  cbv zeta.
  assert (Hin : EvRpcRequest Sample.signed_register_request 3000
                  ∈ new_events Sample.world
                      (@request_naming_server Sample.imports
                         (Sample.proxy Sample.signed_credentials (Returns Sample.ok))
                         Sample.register_request InstanceResponse Sample.world).2)
    by in_trace.
  split; [exact Hin|].
  destruct (signing_changes_signing_headers_only _ _ _ _ _ _ Hin)
    as (Hheaders & _ & _ & _ & Hbody).
  split; [exact Hbody | exact Hheaders].
Defined.

Lemma signature_is_28_base64_characters_witness :
  let self := Sample.proxy Sample.signed_credentials (Returns Sample.ok) in
  let run :=
    @request_naming_server Sample.imports self Sample.register_request InstanceResponse
      Sample.world in
  (access_key_id (credentials (client_config self)) = Some (PyStr.lit "AK")
   /\ access_key_secret (credentials (client_config self)) = Some (PyStr.lit "secret")
   /\ PyStr.lit "AK" <> [] /\ PyStr.lit "secret" <> []
   /\ EvRpcRequest Sample.signed_register_request 3000 ∈ new_events Sample.world run.2)
  /\ exists signature,
       headers Sample.signed_register_request !! PyStr.lit "signature" = Some signature
       /\ length signature = 28%nat.
Proof.
  cbv zeta.
  assert (Hin : EvRpcRequest Sample.signed_register_request 3000
                  ∈ new_events Sample.world
                      (@request_naming_server Sample.imports
                         (Sample.proxy Sample.signed_credentials (Returns Sample.ok))
                         Sample.register_request InstanceResponse Sample.world).2)
    by in_trace.
  assert (Hak : PyStr.lit "AK" <> []) by (vm_compute; discriminate).
  assert (Hsk : PyStr.lit "secret" <> []) by (vm_compute; discriminate).
  split; [repeat split; assumption|].
  destruct (@signature_is_28_base64_characters Sample.imports
              (Sample.proxy Sample.signed_credentials (Returns Sample.ok))
              Sample.register_request InstanceResponse Sample.world
              (PyStr.lit "AK") (PyStr.lit "secret") Sample.signed_register_request 3000
              eq_refl eq_refl Hak Hsk Hin)
    as (sig & Hsig & Hlen & _).
  by exists sig.
Defined.


Lemma failed_injection_dispatches_nothing_witness :
  let self :=
    {| client_config := Sample.config Sample.no_credentials;
       rpc_client := Some (Sample.client (Returns Sample.ok));
       proxy_namespace_id := PyStr.lit "public";
       nacos_server_connector := Sample.failing_connector |} in
  let run :=
    @request_naming_server Sample.imports self Sample.register_request InstanceResponse
      Sample.world in
  inject_security_info (nacos_server_connector self) (headers Sample.register_request)
    = Raises (PyException (PyStr.lit "ClientConnectorError") (PyStr.lit "login failed"))
  /\ run.1 = Raises (NacosException 500
               (PyStr.lit "Request nacos naming server failed: login failed"))
  /\ count_events is_dispatch (new_events Sample.world run.2) = 0%nat.
Proof.
  cbv zeta. split; [reflexivity|].
  destruct (@failed_injection_dispatches_nothing Sample.imports
              {| client_config := Sample.config Sample.no_credentials;
                 rpc_client := Some (Sample.client (Returns Sample.ok));
                 proxy_namespace_id := PyStr.lit "public";
                 nacos_server_connector := Sample.failing_connector |}
              Sample.register_request InstanceResponse Sample.world _ eq_refl)
    as (Hres & _ & Hnone).
  split; [exact Hres | exact Hnone].
Defined.

Lemma batch_register_records_redo_before_rpc_witness :
  let self := Sample.proxy Sample.no_credentials (Returns Sample.batch_answer) in
  let run :=
    @batch_register_instance Sample.imports self Sample.svc Sample.grp
      [Sample.instance; Sample.instance2] Sample.world in
  (EvRpcResponse Sample.batch_answer ∈ new_events Sample.world run.2
   /\ resultCode Sample.batch_answer = 200
   /\ @issubclass Sample.imports (class_of Sample.batch_answer) BatchInstanceResponse = true)
  /\ run.1 = Returns true
  /\ redo_registrations run.2 !! Sample.get_group_name Sample.svc Sample.grp
     = Some (RedoInstances [Sample.instance; Sample.instance2]).
Proof.
  cbv zeta.
  assert (Hin : EvRpcResponse Sample.batch_answer
                  ∈ new_events Sample.world
                      (@batch_register_instance Sample.imports
                         (Sample.proxy Sample.no_credentials (Returns Sample.batch_answer))
                         Sample.svc Sample.grp [Sample.instance; Sample.instance2]
                         Sample.world).2)
    by in_trace.
  split; [repeat split; try reflexivity; assumption|].
  destruct (@batch_register_records_redo_before_rpc Sample.imports
              (Sample.proxy Sample.no_credentials (Returns Sample.batch_answer))
              Sample.svc Sample.grp [Sample.instance; Sample.instance2] Sample.world)
    as (_ & _ & Hentry & Hres).
  split; [exact (Hres _ Hin eq_refl eq_refl) | exact Hentry].
Defined.

Lemma register_returns_success_flag_witness :
  let answer := Sample.response InstanceResponse 200 0 "" false in
  let self := Sample.proxy Sample.no_credentials (Returns answer) in
  let run :=
    @register_instance Sample.imports self Sample.svc Sample.grp Sample.instance
      Sample.world in
  (EvRpcResponse answer ∈ new_events Sample.world run.2
   /\ resultCode answer = 200
   /\ @issubclass Sample.imports (class_of answer) InstanceResponse = true
   /\ success answer = false)
  /\ run.1 = Returns false
  /\ redo_registrations run.2 !! Sample.get_group_name Sample.svc Sample.grp
     = Some (RedoInstance Sample.instance).
Proof.
  cbv zeta.
  assert (Hin : EvRpcResponse (Sample.response InstanceResponse 200 0 "" false)
                  ∈ new_events Sample.world
                      (@register_instance Sample.imports
                         (Sample.proxy Sample.no_credentials
                            (Returns (Sample.response InstanceResponse 200 0 "" false)))
                         Sample.svc Sample.grp Sample.instance Sample.world).2)
    by in_trace.
  split; [repeat split; try reflexivity; assumption|].
  exact (register_returns_success_flag _ _ _ _ _ _ Hin eq_refl eq_refl).
Defined.

Lemma unsubscribe_removes_before_rpc_and_ignores_flag_witness :
  let answer := Sample.response SubscribeServiceResponse 200 0 "" false in
  let self := Sample.proxy Sample.no_credentials (Returns answer) in
  let run := @unsubscribe Sample.imports self Sample.svc Sample.grp [] Sample.world in
  (EvRpcResponse answer ∈ new_events Sample.world run.2
   /\ resultCode answer = 200
   /\ @issubclass Sample.imports (class_of answer) SubscribeServiceResponse = true
   /\ success answer = false)
  /\ run.1 = Returns tt
  /\ count_events is_error_log (new_events Sample.world run.2) = 0%nat.
Proof.
  cbv zeta.
  assert (Hin : EvRpcResponse (Sample.response SubscribeServiceResponse 200 0 "" false)
                  ∈ new_events Sample.world
                      (@unsubscribe Sample.imports
                         (Sample.proxy Sample.no_credentials
                            (Returns (Sample.response SubscribeServiceResponse 200 0 "" false)))
                         Sample.svc Sample.grp [] Sample.world).2)
    by in_trace.
  split; [repeat split; try reflexivity; assumption|].
  destruct (@unsubscribe_removes_before_rpc_and_ignores_flag Sample.imports
              (Sample.proxy Sample.no_credentials
                 (Returns (Sample.response SubscribeServiceResponse 200 0 "" false)))
              Sample.svc Sample.grp [] Sample.world)
    as (_ & _ & _ & Hres).
  exact (Hres _ Hin eq_refl eq_refl).
Defined.

Lemma list_services_returns_count_and_names_witness :
  let self := Sample.proxy Sample.no_credentials (Returns (Sample.list_answer false)) in
  let run := @list_services Sample.imports self Sample.list_param Sample.world in
  (EvRpcResponse (Sample.list_answer false) ∈ new_events Sample.world run.2
   /\ resultCode (Sample.list_answer false) = 200
   /\ @issubclass Sample.imports (class_of (Sample.list_answer false)) ServiceListResponse
      = true
   /\ success (Sample.list_answer false) = false)
  /\ run.1 = Returns {| ServiceList_count := 2;
                        services := [PyStr.lit "svc-a"; PyStr.lit "svc-b"] |}
  /\ (exists q t,
        EvRpcRequest q t ∈ new_events Sample.world run.2
        /\ namespace q = PyStr.lit "other-ns" /\ serviceName q = []).
Proof.
  cbv zeta.
  assert (Hin : EvRpcResponse (Sample.list_answer false)
                  ∈ new_events Sample.world
                      (@list_services Sample.imports
                         (Sample.proxy Sample.no_credentials
                            (Returns (Sample.list_answer false)))
                         Sample.list_param Sample.world).2)
    by in_trace.
  assert (Hreq : EvRpcRequest
                   (ServiceListRequest (PyStr.lit "other-ns") Sample.grp [] 1 20) 3000
                   ∈ new_events Sample.world
                       (@list_services Sample.imports
                          (Sample.proxy Sample.no_credentials
                             (Returns (Sample.list_answer false)))
                          Sample.list_param Sample.world).2)
    by in_trace.
  split; [repeat split; try reflexivity; assumption|].
  destruct (@list_services_returns_count_and_names Sample.imports
              (Sample.proxy Sample.no_credentials (Returns (Sample.list_answer false)))
              Sample.list_param Sample.world)
    as (Hres & Hshape & _).
  split; [exact (Hres _ Hin eq_refl eq_refl)|].
  eexists _, _. split; [exact Hreq|].
  destruct (Hshape _ _ Hreq) as (Hn & _ & Hs & _). by split.
Defined.

Lemma registration_requests_witness :
  let self := Sample.proxy Sample.no_credentials (Returns Sample.ok) in
  exists q t,
    EvRpcRequest q t
      ∈ new_events Sample.registered_world
          (@deregister_instance Sample.imports self Sample.svc Sample.grp Sample.instance
             Sample.registered_world).2
    /\ body q = InstanceRequestBody DE_REGISTER_INSTANCE Sample.instance
    /\ namespace q = PyStr.lit "public".
Proof.
  cbv zeta.
  assert (Hin : EvRpcRequest
                  (InstanceRequest (PyStr.lit "public") Sample.svc Sample.grp
                     Sample.instance DE_REGISTER_INSTANCE) 3000
                  ∈ new_events Sample.registered_world
                      (@deregister_instance Sample.imports
                         (Sample.proxy Sample.no_credentials (Returns Sample.ok))
                         Sample.svc Sample.grp Sample.instance Sample.registered_world).2)
    by in_trace.
  destruct (@registration_requests Sample.imports
              (Sample.proxy Sample.no_credentials (Returns Sample.ok))
              Sample.svc Sample.grp Sample.instance [] Sample.registered_world)
    as (_ & Hdereg & _).
  eexists _, _. split; [exact Hin|].
  destruct (Hdereg _ _ Hin) as (Hn & _ & _ & Hbody). by split.
Defined.
